(** * DockerSandbox: the sandboxed code-execution engine

    A shallow embedding of [services/docker_sandbox.py] (class
    [DockerSandbox]) together with the properties of its execution unit,
    its test-suite runner and its container registry.

    Python [str] values are Rocq strings, one character per code point
    below 256.  Integers are [Z].  The registry [self.containers] is a
    finite map from container ids to their bookkeeping record.  Calls
    that leave the process (Docker SDK, temporary files, clocks) are
    answered by an oracle that sees the whole history of earlier calls,
    and every call is appended to a trace. *)

From Stdlib Require Import ZArith Ascii String List Lia.
From stdpp Require Import base option list strings pretty gmap fin_maps.

Local Open Scope string_scope.
Local Open Scope Z_scope.

(** ** Python text *)

Definition nl : string := String (ascii_of_nat 10) EmptyString.
Definition dquote : string := String (ascii_of_nat 34) EmptyString.

(** [str.isspace] on one character (code points below 256). *)
Definition isspace (c : ascii) : bool :=
  let n := nat_of_ascii c in
  ((9 <=? n) && (n <=? 13) || (28 <=? n) && (n <=? 32)
   || (n =? 133) || (n =? 160))%nat.

Fixpoint lstrip (s : string) : string :=
  match s with
  | String c s' => if isspace c then lstrip s' else s
  | EmptyString => EmptyString
  end.

Definition rstrip (s : string) : string :=
  String.rev (lstrip (String.rev s)).

(** [s.strip()] *)
Definition strip (s : string) : string := rstrip (lstrip s).

(** [s.lower()] on one character: the capitals A-Z, and those of the
    range 192-222 (the sign at 215 is not a letter). *)
Definition lower_char (c : ascii) : ascii :=
  let n := nat_of_ascii c in
  if ((65 <=? n) && (n <=? 90)
      || (192 <=? n) && (n <=? 222) && negb (n =? 215))%nat
  then ascii_of_nat (n + 32) else c.

Fixpoint lower (s : string) : string :=
  match s with
  | String c s' => String (lower_char c) (lower s')
  | EmptyString => EmptyString
  end.

(** [sep.join(l)] *)
Fixpoint join (sep : string) (l : list string) : string :=
  match l with
  | [] => EmptyString
  | [x] => x
  | x :: l' => x ++ sep ++ join sep l'
  end.

(** ** Python values carried by test cases and returned by solutions

    [None], booleans, integers, text and lists of these; floats and
    dicts are left out. *)

#[warnings="-register-all"]
Inductive pyval :=
| PyNone
| PyBool (b : bool)
| PyInt (z : Z)
| PyStr (s : string)
| PyList (l : list pyval).

Definition hex_digit (n : nat) : ascii :=
  if (n <? 10)%nat then ascii_of_nat (48 + n) else ascii_of_nat (87 + n).

(** One character of [repr] of a [str] delimited by [quote]. *)
Definition repr_char (quote : ascii) (c : ascii) : string :=
  let n := nat_of_ascii c in
  if (n =? nat_of_ascii quote)%nat || (n =? 92)%nat
  then String (ascii_of_nat 92) (String c EmptyString)
  else if (n =? 9)%nat then "\t"
  else if (n =? 10)%nat then "\n"
  else if (n =? 13)%nat then "\r"
  else if (n <? 32)%nat || (n =? 127)%nat
          || (128 <=? n)%nat && (n <=? 160)%nat || (n =? 173)%nat
  then String (ascii_of_nat 92)
         (String "x" (String (hex_digit (n / 16)) (String (hex_digit (n mod 16)) EmptyString)))
  else String c EmptyString.

Fixpoint contains_char (c : ascii) (s : string) : bool :=
  match s with
  | String d s' => Ascii.eqb c d || contains_char c s'
  | EmptyString => false
  end.

Fixpoint concat_map_chars (f : ascii -> string) (s : string) : string :=
  match s with
  | String c s' => f c ++ concat_map_chars f s'
  | EmptyString => EmptyString
  end.

(** [repr] of a [str]: single quotes unless the text has a single quote
    and no double quote. *)
Definition repr_str (s : string) : string :=
  let squote := ascii_of_nat 39 in
  let quote :=
    if contains_char squote s && negb (contains_char (ascii_of_nat 34) s)
    then ascii_of_nat 34 else squote in
  String quote (concat_map_chars (repr_char quote) s) ++ String quote EmptyString.

Fixpoint repr (v : pyval) : string :=
  match v with
  | PyNone => "None"
  | PyBool true => "True"
  | PyBool false => "False"
  | PyInt z => pretty z
  | PyStr s => repr_str s
  | PyList l => "[" ++ join ", " (map repr l) ++ "]"
  end.

(** [str(v)]; also what an f-string field [{v}] expands to. *)
Definition str (v : pyval) : string :=
  match v with
  | PyStr s => s
  | _ => repr v
  end.

Definition isinstance_bool (v : pyval) : bool :=
  match v with PyBool _ => true | _ => false end.

(** ** Configuration ([config.py], the Docker block of [Settings]) *)

Record Settings := {
  DOCKER_TIMEOUT : Z;          (* seconds *)
  DOCKER_MEMORY_LIMIT : string;
  DOCKER_CPU_QUOTA : Z;
  CONTAINER_TTL : Z            (* seconds *)
}.

Definition default_settings : Settings :=
  {| DOCKER_TIMEOUT := 30; DOCKER_MEMORY_LIMIT := "256m";
     DOCKER_CPU_QUOTA := 50000; CONTAINER_TTL := 300 |}.

(** ** Exceptions and results *)

(** An exception is known by its message, [str(e)]. *)
Inductive exn := Exception (msg : string).

Definition exn_msg (e : exn) : string := let 'Exception m := e in m.

Inductive pyres (A : Type) :=
| Ok (a : A)
| Raise (e : exn).
Arguments Ok {A} a.
Arguments Raise {A} e.

(** ** The outside world *)

(** [tempfile.NamedTemporaryFile(...).name], split as
    [os.path.dirname] and [os.path.basename] split it. *)
Record temp_path := { dirname : string; basename : string }.

(** Keyword arguments of [client.containers.create]. *)
Record create_args := {
  image : string;
  command : list string;
  volumes : list (string * (string * string));  (* host dir, bind, mode *)
  mem_limit : string;
  cpu_quota : Z;
  network_mode : string;
  detach : bool;
  stdin_open : bool
}.

(** Timestamps of [datetime.utcnow()] are microseconds; readings of
    [time.time()] are clock ticks. *)
Inductive call :=
| NamedTemporaryFile (code : string)       (* create the file and write [code] *)
| ContainersCreate (args : create_args)
| ContainersGet (cid : string)
| ContainerStart (cid : string)
| ContainerWait (cid : string) (timeout : Z)
| ContainerLogs (cid : string)             (* logs(stdout, stderr).decode("utf-8") *)
| ContainerStop (cid : string) (timeout : Z)
| ContainerRemove (cid : string) (force : bool)
| OsUnlink (path : temp_path)
| UtcNow
| TimeTime.

(** What each call gives back.  [ContainerWait] gives the ["StatusCode"]
    entry of the result dict, if it has one. *)
Definition answer (c : call) : Type :=
  match c with
  | NamedTemporaryFile _ => pyres temp_path
  | ContainersCreate _ => pyres string
  | ContainerWait _ _ => pyres (option Z)
  | ContainerLogs _ => pyres string
  | UtcNow | TimeTime => Z
  | _ => pyres ()
  end.

Definition event : Type := sigT answer.

Definition ev (c : call) (a : answer c) : event := existT c a.

Definition oracle : Type := list event -> forall c : call, answer c.

(** ** The sandbox object *)

(** One entry of [self.containers]. *)
Record container_info := { created_at : Z; expires_at : Z }.

Record DockerSandbox := {
  client : bool;                          (* [self.client] is not [None] *)
  containers : gmap string container_info;
  cleanup_task : bool                     (* [self.cleanup_task] is not [None] *)
}.

Record state := {
  self : DockerSandbox;
  trace : list event;       (* calls made so far, oldest first *)
  stdout : list string      (* lines printed by the service *)
}.

Definition set_containers (f : gmap string container_info -> gmap string container_info)
    (st : state) : state :=
  {| self := {| client := client (self st);
                containers := f (containers (self st));
                cleanup_task := cleanup_task (self st) |};
     trace := trace st; stdout := stdout st |}.

(** ** A state-and-exception monad with a frame of local variables *)

Definition M (L A : Type) : Type := L -> state -> pyres A * L * state.

Definition ret {L A} (a : A) : M L A := fun l st => (Ok a, l, st).

Definition bind {L A B} (m : M L A) (k : A -> M L B) : M L B :=
  fun l st =>
    match m l st with
    | (Ok a, l', st') => k a l' st'
    | (Raise e, l', st') => (Raise e, l', st')
    end.

Notation "'let!' x := m 'in' k" := (bind m (fun x => k))
  (at level 10, x name, m at level 100, k at level 200, only parsing).
Notation "'run' m ; k" := (bind m (fun _ => k))
  (at level 10, m at level 100, k at level 200, only parsing).

Definition raise {L A} (e : exn) : M L A := fun l st => (Raise e, l, st).

(** [try: m  except Exception as e: h e] *)
Definition try_except {L A} (m : M L A) (h : exn -> M L A) : M L A :=
  fun l st =>
    match m l st with
    | (Ok a, l', st') => (Ok a, l', st')
    | (Raise e, l', st') => h e l' st'
    end.

(** [try: m  finally: fin]; the value or exception of [m] stands unless
    [fin] itself raises. *)
Definition try_finally {L A} (m : M L A) (fin : M L ()) : M L A :=
  fun l st =>
    match m l st with
    | (r, l', st') =>
        match fin l' st' with
        | (Ok _, l'', st'') => (r, l'', st'')
        | (Raise e, l'', st'') => (Raise e, l'', st'')
        end
    end.

(** A method call: the callee runs in a frame of its own. *)
Definition invoke {L L' A} (init : L') (m : M L' A) : M L A :=
  fun l st => let '(r, _, st') := m init st in (r, l, st').

Definition get_self {L} : M L DockerSandbox := fun l st => (Ok (self st), l, st).

Definition get_local {L} : M L L := fun l st => (Ok l, l, st).

Definition set_local {L} (f : L -> L) : M L () := fun l st => (Ok (), f l, st).

Definition modify_containers {L}
    (f : gmap string container_info -> gmap string container_info) : M L () :=
  fun l st => (Ok (), l, set_containers f st).

Definition print {L} (line : string) : M L () :=
  fun l st => (Ok (), l, {| self := self st; trace := trace st;
                             stdout := stdout st ++ [line] |}).

Definition log_event (e : event) (st : state) : state :=
  {| self := self st; trace := trace st ++ [e]; stdout := stdout st |}.

Fixpoint for_each {L A} (l : list A) (body : A -> M L ()) : M L () :=
  match l with
  | [] => ret ()
  | x :: l' => run body x; for_each l' body
  end.

(** Reading a local variable that no assignment has reached raises. *)
Definition local_var {L A} (name : string) (get : L -> option A) : M L A :=
  fun l st =>
    match get l with
    | Some a => (Ok a, l, st)
    | None =>
        (Raise (Exception ("cannot access local variable '" ++ name
                           ++ "' where it is not associated with a value")), l, st)
    end.

(** Running a method from outside: initial frame in, frame dropped. *)
Definition run_method {L A} (m : M L A) (init : L) (st : state) : pyres A * state :=
  let '(r, _, st') := m init st in (r, st').

(** ** Result records *)

Module ExecutionOutcome.
Record t := {
  success : bool;
  output : option string;
  error : option string;
  execution_time : Z
}.
End ExecutionOutcome.

Module TestCaseResult.
(** The two shapes of a result dict: with ["actual"], or with
    ["error"] and ["output"]. *)
Inductive detail :=
| Actual (actual : string)
| Failure (error : option string) (output : option string).

Record t := {
  test_case : nat;
  passed : bool;
  input : pyval;
  expected : pyval;
  outcome : detail;
  execution_time : Z
}.
End TestCaseResult.

Module SuiteResult.
Record t := {
  success : bool;
  test_results : list TestCaseResult.t;
  total_tests : nat;
  passed_tests : nat
}.
End SuiteResult.

(** Local variables of [execute_python_code] that its [finally] block reads. *)
Record exec_frame := { temp_file : option temp_path; container : option string }.

Definition unbound : exec_frame := {| temp_file := None; container := None |}.

(** Local variables of [execute_code_with_tests]. *)
Record suite_frame := { results : list TestCaseResult.t; all_passed : bool }.

Definition fresh_suite : suite_frame := {| results := []; all_passed := true |}.

(** [enumerate(l)], counting from [i]. *)
Fixpoint enumerate_from {A} (i : nat) (l : list A) : list (nat * A) :=
  match l with
  | [] => []
  | x :: l' => (i, x) :: enumerate_from (S i) l'
  end.

(** [d.get(key, default)] *)
Definition dict_get (d : gmap string pyval) (key : string) (default : pyval) : pyval :=
  match d !! key with
  | Some v => v
  | None => default
  end.

(** The harness program built for one test case (the f-string
    [wrapped_code]), line by line. *)
Definition wrapped_code (test_input : pyval) (code : string) : string :=
  join nl [
    EmptyString;
    "import sys";
    "import io";
    "import json";
    EmptyString;
    "# Test input (may be JSON string)";
    "test_input_raw = '''" ++ str test_input ++ "'''";
    EmptyString;
    "# User's code";
    code;
    EmptyString;
    "# Parse input and call solution";
    "try:";
    "    # Try to parse as JSON to handle quoted strings";
    "    try:";
    "        parsed_input = json.loads(test_input_raw)";
    "    except:";
    "        # If not JSON, use as-is";
    "        parsed_input = test_input_raw";
    "    ";
    "    # Call the solution function";
    "    if isinstance(parsed_input, list):";
    "        # Multiple arguments";
    "        result = solution(*parsed_input)";
    "    else:";
    "        # Single argument";
    "        result = solution(parsed_input)";
    "    ";
    "    # Print result";
    "    print(str(result).lower() if isinstance(result, bool) else result)";
    "except Exception as e:";
    "    print(f" ++ dquote ++ "Error: {e}" ++ dquote ++ ", file=sys.stderr)";
    "    raise";
    EmptyString
  ].

(** What [print(str(result).lower() if isinstance(result, bool) else result)]
    writes to standard output. *)
Definition print_result (result : pyval) : string :=
  (if isinstance_bool result then lower (str result) else str result) ++ nl.


(** ** The methods of [DockerSandbox] *)

Section Sandbox.
Context (env : oracle) (settings : Settings).

(** A call that leaves the process: answered by [env], recorded in the trace. *)
Definition ask {L} (c : call) : M L (answer c) :=
  fun l st => let a := env (trace st) c in (Ok a, l, log_event (ev c a) st).

(** A call whose answer is a value or an exception. *)
Definition attempt {L A} (m : M L (pyres A)) : M L A :=
  let! r := m in
  match r with
  | Ok a => ret a
  | Raise e => raise e
  end.

Definition named_temporary_file {L} (code : string) : M L temp_path :=
  attempt (ask (NamedTemporaryFile code)).
Definition containers_create {L} (args : create_args) : M L string :=
  attempt (ask (ContainersCreate args)).
Definition containers_get {L} (cid : string) : M L () :=
  attempt (ask (ContainersGet cid)).
Definition container_start {L} (cid : string) : M L () :=
  attempt (ask (ContainerStart cid)).
Definition container_wait {L} (cid : string) (timeout : Z) : M L (option Z) :=
  attempt (ask (ContainerWait cid timeout)).
Definition container_logs {L} (cid : string) : M L string :=
  attempt (ask (ContainerLogs cid)).
Definition container_stop {L} (cid : string) (timeout : Z) : M L () :=
  attempt (ask (ContainerStop cid timeout)).
Definition container_remove {L} (cid : string) (force : bool) : M L () :=
  attempt (ask (ContainerRemove cid force)).
Definition os_unlink {L} (path : temp_path) : M L () :=
  attempt (ask (OsUnlink path)).
Definition utcnow {L} : M L Z := ask UtcNow.
Definition time_time {L} : M L Z := ask TimeTime.

(** [if container_id in self.containers: del self.containers[container_id]] *)
Definition forget {L} (container_id : string) : M L () :=
  let! s := get_self in
  match containers s !! container_id with
  | Some _ => modify_containers (delete container_id)
  | None => ret ()
  end.

Definition _remove_container (container_id : string) : M () () :=
  try_finally
    (try_except
       (let! s := get_self in
        if client s then
          run containers_get container_id;
          run container_stop container_id 1;
          run container_remove container_id true;
          print ("Removed container: " ++ container_id)
        else ret ())
       (fun e => print ("Error removing container " ++ container_id ++ ": " ++ exn_msg e)))
    (forget container_id).

(** The ids the sweep collects at [current_time]. *)
Definition expired_ids (current_time : Z) (m : gmap string container_info) : list string :=
  fst <$> List.filter (fun kv => current_time >? expires_at (snd kv)) (map_to_list m).

Definition cleanup_expired_containers : M () () :=
  let! current_time := utcnow in
  let! s := get_self in
  let expired := expired_ids current_time (containers s) in
  for_each expired (fun container_id => invoke () (_remove_container container_id)).

(** The first [ticks] rounds of [_cleanup_loop]; the pause of 60
    seconds before each sweep shows only in the clock. *)
Fixpoint _cleanup_loop (ticks : nat) : M () () :=
  match ticks with
  | O => ret ()
  | S n => run invoke () cleanup_expired_containers; _cleanup_loop n
  end.

(** [self.containers[cid] = {"created_at": utcnow(), "expires_at": utcnow() + timedelta(seconds=CONTAINER_TTL)}] *)
Definition track {L} (cid : string) : M L () :=
  let! created := utcnow in
  let! now := utcnow in
  modify_containers
    (insert cid {| created_at := created;
                   expires_at := now + CONTAINER_TTL settings * 1000000 |}).

Definition unavailable : ExecutionOutcome.t :=
  {| ExecutionOutcome.success := false;
     ExecutionOutcome.error := Some "Docker client not available";
     ExecutionOutcome.output := None;
     ExecutionOutcome.execution_time := 0 |}.

Definition execute_python_code (code : string) (test_input : option string)
    (timeout : option Z) : M exec_frame ExecutionOutcome.t :=
  let! s := get_self in
  if negb (client s) then ret unavailable
  else
    let timeout :=
      match timeout with
      | Some t => if t =? 0 then DOCKER_TIMEOUT settings else t
      | None => DOCKER_TIMEOUT settings
      end in
    let! start_time := time_time in
    try_finally
      (try_except
         (let! tf := named_temporary_file code in
          run set_local (fun l => {| temp_file := Some tf; container := container l |});
          let temp_filename := basename tf in
          let! c := containers_create
            {| image := "python:3.11-slim";
               command := ["python"; "/code/" ++ temp_filename];
               volumes := [(dirname tf, ("/code", "ro"))];
               mem_limit := DOCKER_MEMORY_LIMIT settings;
               cpu_quota := DOCKER_CPU_QUOTA settings;
               network_mode := "none";
               detach := true;
               stdin_open := match test_input with
                             | Some (String _ _) => true
                             | _ => false
                             end |} in
          run set_local (fun l => {| temp_file := temp_file l; container := Some c |});
          run track c;
          run container_start c;
          try_except
            (let! result := container_wait c timeout in
             let! logs := container_logs c in
             let! now := time_time in
             let execution_time := now - start_time in
             let exit_code := default 1 result in
             if exit_code =? 0 then
               ret {| ExecutionOutcome.success := true;
                      ExecutionOutcome.output := Some logs;
                      ExecutionOutcome.error := None;
                      ExecutionOutcome.execution_time := execution_time |}
             else
               ret {| ExecutionOutcome.success := false;
                      ExecutionOutcome.output := Some logs;
                      ExecutionOutcome.error :=
                        Some ("Process exited with code " ++ pretty exit_code);
                      ExecutionOutcome.execution_time := execution_time |})
            (fun e =>
               let! logs := try_except (let! t := container_logs c in ret (Some t))
                                       (fun _ => ret None) in
               let! now := time_time in
               ret {| ExecutionOutcome.success := false;
                      ExecutionOutcome.output := logs;
                      ExecutionOutcome.error :=
                        Some ("Execution timeout or error: " ++ exn_msg e);
                      ExecutionOutcome.execution_time := now - start_time |}))
         (fun e =>
            let! now := time_time in
            ret {| ExecutionOutcome.success := false;
                   ExecutionOutcome.output := None;
                   ExecutionOutcome.error := Some (exn_msg e);
                   ExecutionOutcome.execution_time := now - start_time |}))
      (run try_except
             (let! c := local_var "container" container in
              run container_stop c 1;
              run container_remove c true;
              forget c)
             (fun _ => ret ());
       try_except
         (let! tf := local_var "temp_file" temp_file in
          os_unlink tf)
         (fun _ => ret ())).

(** One round of the loop of [execute_code_with_tests]. *)
Definition run_test_case (code : string) (i : nat) (test_case : gmap string pyval)
    : M suite_frame () :=
  let test_input := dict_get test_case "input" (PyStr EmptyString) in
  let expected_output := dict_get test_case "expected_output" (PyStr EmptyString) in
  let! result := invoke unbound
                   (execute_python_code (wrapped_code test_input code) None None) in
  if ExecutionOutcome.success result then
    let! text := match ExecutionOutcome.output result with
                 | Some text => ret text
                 | None => raise (Exception "'NoneType' object has no attribute 'strip'")
                 end in
    let actual_output := strip text in
    let expected := strip (str expected_output) in
    let passed := bool_decide (actual_output = expected) in
    run set_local (fun l =>
      {| results := results l ++
           [{| TestCaseResult.test_case := i + 1;
               TestCaseResult.passed := passed;
               TestCaseResult.input := test_input;
               TestCaseResult.expected := PyStr expected;
               TestCaseResult.outcome := TestCaseResult.Actual actual_output;
               TestCaseResult.execution_time := ExecutionOutcome.execution_time result |}];
         all_passed := all_passed l |});
    if negb passed
    then set_local (fun l => {| results := results l; all_passed := false |})
    else ret ()
  else
    run set_local (fun l =>
      {| results := results l ++
           [{| TestCaseResult.test_case := i + 1;
               TestCaseResult.passed := false;
               TestCaseResult.input := test_input;
               TestCaseResult.expected := expected_output;
               TestCaseResult.outcome :=
                 TestCaseResult.Failure (ExecutionOutcome.error result)
                                        (ExecutionOutcome.output result);
               TestCaseResult.execution_time := ExecutionOutcome.execution_time result |}];
         all_passed := all_passed l |});
    set_local (fun l => {| results := results l; all_passed := false |}).

Definition execute_code_with_tests (code : string)
    (test_cases : list (gmap string pyval)) : M suite_frame SuiteResult.t :=
  run set_local (fun _ => fresh_suite);
  run for_each (enumerate_from 0 test_cases)
               (fun it => run_test_case code (fst it) (snd it));
  let! l := get_local in
  ret {| SuiteResult.success := all_passed l;
         SuiteResult.test_results := results l;
         SuiteResult.total_tests := length test_cases;
         SuiteResult.passed_tests :=
           length (List.filter TestCaseResult.passed (results l)) |}.

(** [shutdown]: cancelling the sweep task leaves [self.cleanup_task]
    as it is; every registered id goes through [_remove_container]. *)
Definition shutdown : M () () :=
  let! s := get_self in
  for_each (fst <$> map_to_list (containers s))
           (fun container_id => invoke () (_remove_container container_id)).

(** [start_cleanup_task]: the sweep task is created once, and only
    with a client. *)
Definition start_cleanup_task : M () () :=
  fun l st =>
    if client (self st) && negb (cleanup_task (self st))
    then (Ok (), l, {| self := {| client := client (self st);
                                  containers := containers (self st);
                                  cleanup_task := true |};
                       trace := trace st; stdout := stdout st |})
    else (Ok (), l, st).
End Sandbox.

(** [DockerSandbox()]: [connected] tells whether a Docker daemon
    answered the ping of [__init__]. *)
Definition init (connected : bool) : DockerSandbox :=
  {| client := connected; containers := ∅; cleanup_task := false |}.

(** The state of a process that has just built its sandbox; the lines
    [__init__] prints are left out. *)
Definition boot (connected : bool) : state :=
  {| self := init connected; trace := []; stdout := [] |}.

(** ** Reading a trace *)

(** Id returned by a [containers.create] that succeeded. *)
Definition created_id (e : event) : option string :=
  match e with
  | existT c a =>
      match c return answer c -> option string with
      | ContainersCreate _ =>
          fun a => match a with Ok cid => Some cid | Raise _ => None end
      | _ => fun _ => None
      end a
  end.

(** Id of a container whose [stop] returned. *)
Definition stopped_id (e : event) : option string :=
  match e with
  | existT c a =>
      match c return answer c -> option string with
      | ContainerStop cid _ =>
          fun a => match a with Ok _ => Some cid | Raise _ => None end
      | _ => fun _ => None
      end a
  end.

(** Id of a container whose [remove] returned. *)
Definition removed_id (e : event) : option string :=
  match e with
  | existT c a =>
      match c return answer c -> option string with
      | ContainerRemove cid _ =>
          fun a => match a with Ok _ => Some cid | Raise _ => None end
      | _ => fun _ => None
      end a
  end.

(** Container a Docker call is about, for the calls that destroy:
    [containers.get], [stop], [remove]. *)
Definition destroy_target (e : event) : option string :=
  match projT1 e with
  | ContainersGet cid | ContainerStop cid _ | ContainerRemove cid _ => Some cid
  | _ => None
  end.

(** Id looked up by a [containers.get], the first step of a destroy. *)
Definition looked_up_id (e : event) : option string :=
  match projT1 e with
  | ContainersGet cid => Some cid
  | _ => None
  end.

(** Program text written to a temporary file, whether or not the
    write succeeded. *)
Definition written_code (e : event) : option string :=
  match projT1 e with
  | NamedTemporaryFile code => Some code
  | _ => None
  end.

Definition created (evs : list event) : list string := omap created_id evs.
Definition stopped (evs : list event) : list string := omap stopped_id evs.
Definition removed (evs : list event) : list string := omap removed_id evs.
Definition looked_up (evs : list event) : list string := omap looked_up_id evs.
Definition written (evs : list event) : list string := omap written_code evs.

(** The calls made from [st] on, given the later trace. *)
Definition since (st : state) (later : state) : list event :=
  drop (length (trace st)) (trace later).

(** ** Concrete daemons and inputs, for running the methods *)

(** A daemon on which every call works: the program prints [logs] and
    exits with status 0; the clocks advance with the number of calls. *)
Definition calm (logs : string) : oracle := fun h c =>
  match c return answer c with
  | NamedTemporaryFile _ => Ok {| dirname := "/tmp"; basename := "tmpq3x1.py" |}
  | ContainersCreate _ => Ok "c0ffee"
  | ContainerWait _ _ => Ok (Some 0)
  | ContainerLogs _ => Ok logs
  | UtcNow => 1000000 * Z.of_nat (length h)
  | TimeTime => Z.of_nat (length h)
  | _ => Ok ()
  end.

(** The same daemon, except that [stop] is refused. *)
Definition stop_fails (logs : string) : oracle := fun h c =>
  match c as c0 return answer c0 -> answer c0 with
  | ContainerStop _ _ => fun _ => Raise (Exception "connection refused")
  | _ => fun a => a
  end (calm logs h c).

(** The same daemon, except that it knows no container any more. *)
Definition gone (logs : string) : oracle := fun h c =>
  match c as c0 return answer c0 -> answer c0 with
  | ContainersGet _ => fun _ => Raise (Exception "404 Client Error: Not Found")
  | _ => fun a => a
  end (calm logs h c).

(** The outcome the specification words for a disabled client. *)
Definition spec_unavailable : ExecutionOutcome.t :=
  {| ExecutionOutcome.success := false;
     ExecutionOutcome.error := Some "execution unavailable";
     ExecutionOutcome.output := None;
     ExecutionOutcome.execution_time := 0 |}.

(** Settings under which an entry expires at the instant it is registered. *)
Definition zero_ttl : Settings :=
  {| DOCKER_TIMEOUT := 30; DOCKER_MEMORY_LIMIT := "256m";
     DOCKER_CPU_QUOTA := 50000; CONTAINER_TTL := 0 |}.

(** The state right after container ["c0ffee"] was registered under
    [zero_ttl] on a fresh sandbox. *)
Definition just_tracked : state :=
  snd (run_method (track (calm "ok") zero_ttl "c0ffee") () (boot true)).

(** A sandbox with one entry that expires at microsecond [expiry]. *)
Definition holding (cid : string) (expiry : Z) : state :=
  {| self := {| client := true;
                containers := {[ cid := {| created_at := 0; expires_at := expiry |} ]};
                cleanup_task := true |};
     trace := []; stdout := [] |}.

(** A test case whose solution is expected to answer ["true"]. *)
Definition wants_true : gmap string pyval :=
  {[ "input" := PyStr "[1]"; "expected_output" := PyStr "true" ]}.

(** A test case with neither ["input"] nor ["expected_output"]. *)
Definition bare_case : gmap string pyval :=
  {[ "description" := PyStr "no fields" ]}.

(** A daemon whose containers exit with [status], or give no status at
    all, after printing [logs]. *)
Definition exits_with (status : option Z) (logs : string) : oracle := fun h c =>
  match c as c0 return answer c0 -> answer c0 with
  | ContainerWait _ _ => fun _ => Ok status
  | _ => fun a => a
  end (calm logs h c).

(** A daemon on which the wait runs into its timeout. *)
Definition times_out (logs : string) : oracle := fun h c =>
  match c as c0 return answer c0 -> answer c0 with
  | ContainerWait _ _ => fun _ => Raise (Exception "Read timed out.")
  | _ => fun a => a
  end (calm logs h c).

(** A daemon that cannot create containers. *)
Definition no_image (logs : string) : oracle := fun h c =>
  match c as c0 return answer c0 -> answer c0 with
  | ContainersCreate _ => fun _ => Raise (Exception "404 Client Error: No such image")
  | _ => fun a => a
  end (calm logs h c).

(** ** Proof automation *)

Ltac unfold_monad :=
  cbv beta iota zeta delta
    [bind ret raise try_except try_finally invoke get_self get_local set_local
     modify_containers print ask attempt local_var run_method
     named_temporary_file containers_create containers_get container_start
     container_wait container_logs container_stop container_remove os_unlink
     utcnow time_time forget track negb temp_file container unbound].

(** One step through a method: name a clock reading, or split on the
    answer of the next call, on a registry lookup or on the exit status. *)
Ltac case_step env :=
  first
    [ match goal with
      | |- context [env ?h TimeTime] =>
          let t := fresh "t" in generalize (env h TimeTime); intro t
      | |- context [env ?h UtcNow] =>
          let t := fresh "now" in generalize (env h UtcNow); intro t
      end
    | match goal with
      | |- context [match env ?h ?c with _ => _ end] =>
          let E := fresh "E" in destruct (env h c) eqn:E
      end
    | match goal with
      | |- context [match ?m !! ?k with _ => _ end] =>
          let E := fresh "E" in destruct (m !! k) eqn:E
      | |- context [if (default 1 ?r =? 0) then _ else _] =>
          destruct (default 1 r =? 0) eqn:?
      end ];
  cbv beta iota zeta delta [temp_file container].

Ltac absurd_lookup :=
  match goal with
  | H : _ !! _ = None |- _ =>
      cbn [self containers set_containers log_event] in H;
      rewrite lookup_insert_eq in H; discriminate H
  end.

(** ** More ways to read a trace *)

(** Answer of a [container.wait]. *)
Definition wait_answer (e : event) : option (pyres (option Z)) :=
  match e with
  | existT c a =>
      match c return answer c -> option (pyres (option Z)) with
      | ContainerWait _ _ => fun a => Some a
      | _ => fun _ => None
      end a
  end.

(** Answer of a [container.logs]. *)
Definition logs_answer (e : event) : option (pyres string) :=
  match e with
  | existT c a =>
      match c return answer c -> option (pyres string) with
      | ContainerLogs _ => fun a => Some a
      | _ => fun _ => None
      end a
  end.

(** Exception raised while the container is set up: by the temporary
    file, by [containers.create] or by [container.start]. *)
Definition provision_failure (e : event) : option exn :=
  match e with
  | existT c a =>
      match c return answer c -> option exn with
      | NamedTemporaryFile _ =>
          fun a => match a with Ok _ => None | Raise e => Some e end
      | ContainersCreate _ =>
          fun a => match a with Ok _ => None | Raise e => Some e end
      | ContainerStart _ =>
          fun a => match a with Ok _ => None | Raise e => Some e end
      | _ => fun _ => None
      end a
  end.

(** Arguments of a [containers.create]. *)
Definition create_call (e : event) : option create_args :=
  match projT1 e with
  | ContainersCreate args => Some args
  | _ => None
  end.

(** Timeout handed to a [container.wait]. *)
Definition wait_timeout (e : event) : option Z :=
  match projT1 e with
  | ContainerWait _ timeout => Some timeout
  | _ => None
  end.

Definition wait_answers (evs : list event) : list (pyres (option Z)) := omap wait_answer evs.
Definition logs_answers (evs : list event) : list (pyres string) := omap logs_answer evs.
Definition provision_failures (evs : list event) : list exn := omap provision_failure evs.
Definition create_calls (evs : list event) : list create_args := omap create_call evs.
Definition wait_timeouts (evs : list event) : list Z := omap wait_timeout evs.

(** [timeout or settings.DOCKER_TIMEOUT] *)
Definition timeout_or_default (settings : Settings) (timeout : option Z) : Z :=
  match timeout with
  | Some t => if t =? 0 then DOCKER_TIMEOUT settings else t
  | None => DOCKER_TIMEOUT settings
  end.

(** ** The life of a sandbox *)

(** One use of the sandbox by the application: a method is run to its
    end and leaves a new state. *)
Inductive step (env : oracle) (settings : Settings) : state -> state -> Prop :=
| step_execute code test_input timeout st :
    step env settings st
      (snd (run_method (execute_python_code env settings code test_input timeout)
                       unbound st))
| step_tests code test_cases st :
    step env settings st
      (snd (run_method (execute_code_with_tests env settings code test_cases)
                       fresh_suite st))
| step_sweep st :
    step env settings st (snd (run_method (cleanup_expired_containers env) () st))
| step_start st :
    step env settings st (snd (run_method start_cleanup_task () st))
| step_shutdown st :
    step env settings st (snd (run_method (shutdown env) () st)).

(** The states a sandbox built by [DockerSandbox()] can be in. *)
Inductive reachable (env : oracle) (settings : Settings) (connected : bool)
    : state -> Prop :=
| reachable_boot : reachable env settings connected (boot connected)
| reachable_step st st' :
    reachable env settings connected st ->
    step env settings st st' ->
    reachable env settings connected st'.

(** A reading of a clock, as opposed to a call to Docker or to the file
    system. *)
Definition is_clock (e : event) : bool :=
  match projT1 e with
  | UtcNow | TimeTime => true
  | _ => false
  end.

(** How a later state relates to an earlier one, [evs] being the calls
    made in between: the trace grows by them, the client stays, ids
    enter the registry only as results of a create, the sweep task
    appears only with a client, and without a client only clocks are
    read. *)
Definition grows_by (st st' : state) (evs : list event) : Prop :=
  trace st' = (trace st ++ evs)%list
  /\ client (self st') = client (self st)
  /\ (forall cid,
        is_Some (containers (self st') !! cid) ->
        is_Some (containers (self st) !! cid) \/ cid ∈ created evs)
  /\ (cleanup_task (self st') = true ->
      cleanup_task (self st) = true \/ client (self st) = true)
  /\ (client (self st) = false -> Forall (fun e => is_clock e = true) evs).

Definition advances (st st' : state) : Prop := exists evs, grows_by st st' evs.

(** The container arguments of a harness run: those of any execution,
    and a closed standard input. *)
Definition harness_container (settings : Settings) (args : create_args) : Prop :=
  image args = "python:3.11-slim"
  /\ network_mode args = "none"
  /\ detach args = true
  /\ stdin_open args = false
  /\ mem_limit args = DOCKER_MEMORY_LIMIT settings
  /\ cpu_quota args = DOCKER_CPU_QUOTA settings
  /\ exists dir, volumes args = [(dir, ("/code", "ro"))].

(** [s] is made of whitespace only (the empty text included). *)
Fixpoint all_space (s : string) : bool :=
  match s with
  | String c s' => isspace c && all_space s'
  | EmptyString => true
  end.

(** Reading of [datetime.utcnow()]. *)
Definition utc_reading (e : event) : option Z :=
  match e with
  | existT c a =>
      match c return answer c -> option Z with
      | UtcNow => fun a => Some a
      | _ => fun _ => None
      end a
  end.

Definition utc_readings (evs : list event) : list Z := omap utc_reading evs.


(** ** The routes that use the sandbox ([routes/code.py]) *)

(** What an endpoint answers: a body, or the [HTTPException] it raises. *)
Inductive response (A : Type) :=
| Body (a : A)
| HTTPException (status_code : Z) (detail : string).
Arguments Body {A} a.
Arguments HTTPException {A} status_code detail.

Module CodeSubmission.
Record t := {
  user_id : string;
  question_id : string;
  code : string;
  language : string
}.
End CodeSubmission.

(** [run_code]: the body repeats the four fields of the outcome. *)
Definition run_code (env : oracle) (settings : Settings) (submission : CodeSubmission.t)
    : M () (response ExecutionOutcome.t) :=
  try_except
    (let! result :=
       invoke unbound
         (execute_python_code env settings (CodeSubmission.code submission) None None) in
     ret (Body {| ExecutionOutcome.success := ExecutionOutcome.success result;
                  ExecutionOutcome.output := ExecutionOutcome.output result;
                  ExecutionOutcome.error := ExecutionOutcome.error result;
                  ExecutionOutcome.execution_time :=
                    ExecutionOutcome.execution_time result |}))
    (fun e => ret (HTTPException 500 ("Failed to run code: " ++ exn_msg e))).

(** [bool(v)] *)
Definition truthy (v : pyval) : bool :=
  match v with
  | PyNone => false
  | PyBool b => b
  | PyInt z => negb (z =? 0)
  | PyStr EmptyString => false
  | PyStr (String _ _) => true
  | PyList [] => false
  | PyList (_ :: _) => true
  end.

(** The test cases [get_code_question] shows:
    [[tc for tc in test_cases if not tc.get("is_hidden", False)]]. *)
Definition visible_test_cases (test_cases : list (gmap string pyval))
    : list (gmap string pyval) :=
  List.filter (fun tc => negb (truthy (dict_get tc "is_hidden" (PyBool false)))) test_cases.

(** ** Replies of the language model ([services/openrouter_service.py]) *)

(** [s.startswith(prefix)] *)
Fixpoint startswith (prefix s : string) : bool :=
  match prefix, s with
  | EmptyString, _ => true
  | String a prefix', String b s' => Ascii.eqb a b && startswith prefix' s'
  | String _ _, EmptyString => false
  end.

(** [s.endswith(suffix)] *)
Definition endswith (suffix s : string) : bool :=
  startswith (String.rev suffix) (String.rev s).

(** [s[n:]] *)
Fixpoint drop_front (n : nat) (s : string) : string :=
  match n, s with
  | O, _ => s
  | S n', String _ s' => drop_front n' s'
  | S _, EmptyString => EmptyString
  end.

(** [s[:-n]], for a positive [n] *)
Definition drop_back (n : nat) (s : string) : string :=
  String.rev (drop_front n (String.rev s)).

Definition fence : string := "```".
Definition json_fence : string := "```json".

(** The text each method of [OpenRouterService] hands to [json.loads]:
    the reply trimmed, without a leading [```json] or [```], without a
    trailing [```], and trimmed again. *)
Definition unfence (response : string) : string :=
  let response := strip response in
  let response := if startswith json_fence response then drop_front 7 response else response in
  let response := if startswith fence response then drop_front 3 response else response in
  let response := if endswith fence response then drop_back 3 response else response in
  strip response.

(** ** Python text: checks *)

Example strip_ex : strip (" [0, 1]" ++ nl) = "[0, 1]".
Proof. reflexivity. Qed.

Example str_ex : str (PyList [PyInt 0; PyStr "a'b"; PyBool true; PyNone; PyInt (-12)])
                 = "[0, " ++ dquote ++ "a'b" ++ dquote ++ ", True, None, -12]".
Proof. vm_compute. reflexivity. Qed.

Example lower_ex : lower (str (PyBool true)) = "true".
Proof. reflexivity. Qed.

Example print_result_list_ex :
  print_result (PyList [PyInt 0; PyInt 1]) = "[0, 1]" ++ nl.
Proof. vm_compute. reflexivity. Qed.

Example print_result_nested_bool_ex :
  print_result (PyList [PyBool true]) = "[True]" ++ nl.
Proof. vm_compute. reflexivity. Qed.

(** ** Runs on concrete daemons *)

Example calm_run_ex :
  fst (run_method (execute_python_code (calm "ok") default_settings "print(1)" None None)
                  unbound (boot true))
  = Ok {| ExecutionOutcome.success := true;
          ExecutionOutcome.output := Some "ok";
          ExecutionOutcome.error := None;
          ExecutionOutcome.execution_time := 8 |}.
Proof. vm_compute. reflexivity. Qed.

Example calm_run_calls_ex :
  projT1 <$> trace (snd (run_method
    (execute_python_code (calm "ok") default_settings "print(1)" None None)
    unbound (boot true)))
  = [TimeTime; NamedTemporaryFile "print(1)";
     ContainersCreate
       {| image := "python:3.11-slim";
          command := ["python"; "/code/tmpq3x1.py"];
          volumes := [("/tmp", ("/code", "ro"))];
          mem_limit := "256m"; cpu_quota := 50000;
          network_mode := "none"; detach := true; stdin_open := false |};
     UtcNow; UtcNow; ContainerStart "c0ffee"; ContainerWait "c0ffee" 30;
     ContainerLogs "c0ffee"; TimeTime; ContainerStop "c0ffee" 1;
     ContainerRemove "c0ffee" true;
     OsUnlink {| dirname := "/tmp"; basename := "tmpq3x1.py" |}].
Proof. vm_compute. reflexivity. Qed.

Example stop_fails_run_ex :
  map_to_list (containers (self (snd (run_method
    (execute_python_code (stop_fails "ok") default_settings "print(1)" None None)
    unbound (boot true)))))
  = [("c0ffee", {| created_at := 3000000; expires_at := 304000000 |})].
Proof. vm_compute. reflexivity. Qed.

(** ** The execution unit *)

Lemma since_app st st' evs :
  trace st' = (trace st ++ evs)%list -> since st st' = evs.
Proof. intros E. unfold since. rewrite E. apply drop_app_length. Qed.

(** Everything one call of [execute_python_code] can do: it returns an
    outcome, touches nothing but the trace and the registry, and the
    registry changes by at most the entry of the container it created. *)
Lemma execute_python_code_effect env settings code ti to st :
  exists out l' st' evs,
    execute_python_code env settings code ti to unbound st = (Ok out, l', st')
    /\ trace st' = (trace st ++ evs)%list
    /\ stdout st' = stdout st
    /\ client (self st') = client (self st)
    /\ cleanup_task (self st') = cleanup_task (self st)
    /\ (ExecutionOutcome.success out = true <-> ExecutionOutcome.error out = None)
    /\ (ExecutionOutcome.success out = true -> is_Some (ExecutionOutcome.output out))
    /\ (if client (self st) then written evs = [code] else evs = [])
    /\ ((created evs = [] /\ containers (self st') = containers (self st))
        \/ exists cid, created evs = [cid] /\
             ((stopped evs = [cid] /\ removed evs = [cid]
               /\ containers (self st') = delete cid (containers (self st)))
              \/ ((stopped evs = [] \/ removed evs = [])
                  /\ exists info,
                       containers (self st') = <[cid:=info]> (containers (self st))))).
Proof.
  unfold execute_python_code. unfold_monad.
  destruct (client (self st)) eqn:Hc; cbv beta iota.
  2:{ exists unavailable, unbound, st, []. rewrite app_nil_r.
      repeat split; try done. left. done. }
  repeat case_step env.
  all: do 4 eexists; (split; [reflexivity|]);
       cbn [trace log_event set_containers self containers client cleanup_task stdout
            ExecutionOutcome.success ExecutionOutcome.error ExecutionOutcome.output];
       rewrite <- ?app_assoc; cbn [app];
       (split; [reflexivity|]).
  all: try absurd_lookup.
  all: do 3 (split; [done|]); (split; [split; congruence|]);
       (split; [intros; try discriminate; eexists; reflexivity|]).
  all: cbv beta iota zeta delta
         [created stopped removed written omap list_omap created_id stopped_id
          removed_id written_code ev projT1].
  all: split; [reflexivity|].
  all: first [ left; split; [reflexivity|done]
             | right; eexists; (split; [reflexivity|]);
               first [ left; split; [reflexivity|]; split; [reflexivity|];
                       apply delete_insert_eq
                     | right; split; [first [left; reflexivity | right; reflexivity]|];
                       eexists; reflexivity ] ].
Qed.

Lemma execute_python_code_returns env settings code ti to st :
  exists out st',
    run_method (execute_python_code env settings code ti to) unbound st = (Ok out, st')
    /\ (ExecutionOutcome.success out = true -> is_Some (ExecutionOutcome.output out)).
Proof.
  destruct (execute_python_code_effect env settings code ti to st)
    as (out & l' & st' & evs & E & _ & _ & _ & _ & _ & Hout & _).
  exists out, st'. unfold run_method. rewrite E. done.
Qed.

(** C6. Every outcome [execute_python_code] returns has a null error
    when its success flag is true and a non-null error when the flag is
    false; and the call always returns an outcome. *)
Theorem execute_outcome_error_iff_failure env settings code test_input timeout st :
  exists out st',
    run_method (execute_python_code env settings code test_input timeout) unbound st
      = (Ok out, st')
    /\ (ExecutionOutcome.success out = true -> ExecutionOutcome.error out = None)
    /\ (ExecutionOutcome.success out = false -> ExecutionOutcome.error out <> None).
Proof.
  destruct (execute_python_code_effect env settings code test_input timeout st)
    as (out & l' & st' & evs & E & _ & _ & _ & _ & Hiff & _).
  exists out, st'. unfold run_method. rewrite E. split; [done|].
  split; [apply Hiff|].
  intros Hf Hn. apply Hiff in Hn. congruence.
Qed.

Lemma execute_outcome_error_iff_failure_witness :
  exists out st',
    run_method (execute_python_code (stop_fails "ok") default_settings "print(1)" None None)
               unbound (boot true) = (Ok out, st')
    /\ ExecutionOutcome.success out = true
    /\ ExecutionOutcome.error out = None.
Proof.
  destruct (execute_outcome_error_iff_failure (stop_fails "ok") default_settings
              "print(1)" None None (boot true)) as (out & st' & E & Hok & _).
  exists out, st'. split; [exact E|].
  vm_compute in E. injection E as <- <-.
  split; [reflexivity|]. apply Hok. reflexivity.
Defined.

(** C2, as the code has it. Without a client, [execute_python_code]
    returns at once the outcome with success false, error text
    "Docker client not available", no output and execution time 0; the
    state is the one it started from: no call was made (so nothing was
    provisioned) and nothing was registered. *)
Theorem execute_without_client env settings code test_input timeout st :
  client (self st) = false ->
  run_method (execute_python_code env settings code test_input timeout) unbound st
  = (Ok {| ExecutionOutcome.success := false;
           ExecutionOutcome.output := None;
           ExecutionOutcome.error := Some "Docker client not available";
           ExecutionOutcome.execution_time := 0 |}, st).
Proof.
  intros Hc. unfold run_method, execute_python_code. unfold_monad.
  rewrite Hc. reflexivity.
Qed.

Lemma execute_without_client_witness :
  run_method (execute_python_code (calm "ok") default_settings "print(1)" None None)
             unbound (boot false)
  = (Ok {| ExecutionOutcome.success := false;
           ExecutionOutcome.output := None;
           ExecutionOutcome.error := Some "Docker client not available";
           ExecutionOutcome.execution_time := 0 |}, boot false).
Proof. apply execute_without_client. reflexivity. Defined.

(** C2, as worded: the error text of the outcome is not
    "execution unavailable". *)
Lemma execute_without_client_not_spec_text :
  fst (run_method (execute_python_code (calm "ok") default_settings "print(1)" None None)
                  unbound (boot false))
  <> Ok spec_unavailable.
Proof. vm_compute. discriminate. Qed.

(** C1, as the code has it. A call of [execute_python_code] always
    returns an outcome.  If it created no container, the registry is
    unchanged.  If it created one and both stopping and removing it
    succeeded, the call has removed the entry it registered: the
    registry is the one before the call without that id, hence equal to
    it when the id is new. *)
Theorem execute_registry_effect env settings code test_input timeout st :
  exists out st',
    run_method (execute_python_code env settings code test_input timeout) unbound st
      = (Ok out, st')
    /\ (created (since st st') = [] ->
        containers (self st') = containers (self st))
    /\ (forall cid,
          cid ∈ created (since st st') ->
          cid ∈ stopped (since st st') ->
          cid ∈ removed (since st st') ->
          containers (self st') = delete cid (containers (self st))
          /\ (containers (self st) !! cid = None ->
              containers (self st') = containers (self st))).
Proof.
  destruct (execute_python_code_effect env settings code test_input timeout st)
    as (out & l' & st' & evs & E & Ht & _ & _ & _ & _ & _ & _ & Hreg).
  exists out, st'. unfold run_method. rewrite E. split; [done|].
  rewrite (since_app _ _ _ Ht).
  destruct Hreg as [[Hc Hm] | (cid0 & Hc & [(Hs & Hr & Hm) | (Hsr & info & Hm)])];
    rewrite Hc.
  - split; [done|]. intros cid Hin. by apply elem_of_nil in Hin.
  - split; [discriminate|].
    intros cid Hin _ _. apply list_elem_of_singleton in Hin as ->.
    split; [done|]. intros Hnew. rewrite Hm. by apply delete_id.
  - split; [discriminate|].
    intros cid _ Hs Hr. exfalso.
    destruct Hsr as [Hnil | Hnil]; rewrite Hnil in *;
      [by apply elem_of_nil in Hs | by apply elem_of_nil in Hr].
Qed.

(** A call that fails to stop or remove its container leaves the entry
    in the registry. *)
Lemma execute_keeps_entry_on_failed_cleanup env settings code test_input timeout st :
  exists out st',
    run_method (execute_python_code env settings code test_input timeout) unbound st
      = (Ok out, st')
    /\ forall cid,
         cid ∈ created (since st st') ->
         cid ∉ stopped (since st st') \/ cid ∉ removed (since st st') ->
         is_Some (containers (self st') !! cid).
Proof.
  destruct (execute_python_code_effect env settings code test_input timeout st)
    as (out & l' & st' & evs & E & Ht & _ & _ & _ & _ & _ & _ & Hreg).
  exists out, st'. unfold run_method. rewrite E. split; [done|].
  rewrite (since_app _ _ _ Ht).
  destruct Hreg as [[Hc Hm] | (cid0 & Hc & [(Hs & Hr & Hm) | (Hsr & info & Hm)])];
    rewrite Hc.
  - intros cid Hin. by apply elem_of_nil in Hin.
  - intros cid Hin [Hn | Hn]; apply list_elem_of_singleton in Hin as ->;
      exfalso; apply Hn.
    + rewrite Hs. by apply list_elem_of_singleton.
    + rewrite Hr. by apply list_elem_of_singleton.
  - intros cid Hin _. apply list_elem_of_singleton in Hin as ->.
    rewrite Hm, lookup_insert_eq. done.
Qed.

Lemma execute_registry_effect_witness :
  exists out st',
    run_method (execute_python_code (calm "ok") default_settings "print(1)" None None)
               unbound (boot true) = (Ok out, st')
    /\ containers (self st') = containers (self (boot true)).
Proof.
  destruct (execute_registry_effect (calm "ok") default_settings "print(1)" None None
              (boot true)) as (out & st' & E & _ & Hdone).
  exists out, st'. split; [exact E|].
  vm_compute in E. injection E as <- <-.
  apply (Hdone "c0ffee").
  - vm_compute. apply list_elem_of_here.
  - vm_compute. apply list_elem_of_here.
  - vm_compute. apply list_elem_of_here.
  - reflexivity.
Defined.

(** C1, as worded: on a daemon that refuses [stop], the registry after
    the call is not the registry before it. *)
Lemma execute_leaves_entry_when_stop_fails :
  containers (self (snd (run_method
    (execute_python_code (stop_fails "ok") default_settings "print(1)" None None)
    unbound (boot true))))
  <> containers (self (boot true)).
Proof.
  intros H. apply (f_equal (fun m => m !! "c0ffee")) in H.
  vm_compute in H. discriminate H.
Qed.

(** ** Removal, sweep and shutdown *)

(** Everything one call of [_remove_container] can do. *)
Lemma remove_container_effect env cid l st :
  exists st' evs,
    _remove_container env cid l st = (Ok (), l, st')
    /\ trace st' = (trace st ++ evs)%list
    /\ containers (self st') = delete cid (containers (self st))
    /\ client (self st') = client (self st)
    /\ cleanup_task (self st') = cleanup_task (self st)
    /\ (client (self st) = true -> looked_up evs = [cid])
    /\ (client (self st) = false -> evs = [])
    /\ Forall (fun e => destroy_target e = Some cid) evs.
Proof.
  unfold _remove_container. unfold_monad.
  destruct (client (self st)) eqn:Hc; cbv beta iota.
  all: repeat case_step env.
  all: do 2 eexists; (split; [reflexivity|]);
       cbn [trace log_event set_containers self containers client cleanup_task];
       rewrite <- ?app_assoc; cbn [app];
       (split; [first [reflexivity | symmetry; apply app_nil_r]|]).
  all: split; [first [reflexivity | symmetry; by apply delete_id]|].
  all: do 2 (split; [done|]).
  all: split; [intros; try discriminate; reflexivity|].
  all: split; [intros; try discriminate; reflexivity|].
  all: repeat constructor.
Qed.

Lemma looked_up_app evs1 evs2 :
  looked_up (evs1 ++ evs2) = (looked_up evs1 ++ looked_up evs2)%list.
Proof. apply omap_app. Qed.

(** Passing a list of ids through [_remove_container], as the sweep and
    the shutdown do. *)
Lemma remove_all_effect {L} env (ids : list string) (l : L) st :
  exists st' evs,
    for_each ids (fun container_id => invoke () (_remove_container env container_id)) l st
      = (Ok (), l, st')
    /\ trace st' = (trace st ++ evs)%list
    /\ (forall k, containers (self st') !! k
                  = if decide (k ∈ ids) then None else containers (self st) !! k)
    /\ client (self st') = client (self st)
    /\ (client (self st) = true -> looked_up evs = ids)
    /\ Forall (fun e => exists cid, cid ∈ ids /\ destroy_target e = Some cid) evs.
Proof.
  revert st. induction ids as [|x ids IH]; intros st.
  - exists st, []. cbn [for_each]. unfold ret. rewrite app_nil_r.
    repeat split; try done.
  - destruct (remove_container_effect env x () st)
      as (st1 & evs1 & E1 & Ht1 & Hm1 & Hc1 & _ & Hl1 & _ & Hf1).
    destruct (IH st1) as (st2 & evs2 & E2 & Ht2 & Hm2 & Hc2 & Hl2 & Hf2).
    exists st2, (evs1 ++ evs2)%list.
    cbn [for_each]. unfold bind, invoke at 1. rewrite E1, E2.
    split; [done|]. split; [by rewrite Ht2, Ht1, app_assoc|].
    split; [|split; [congruence|split]].
    + intros k. rewrite Hm2, Hm1.
      destruct (decide (k = x)) as [->|Hne].
      * rewrite lookup_delete_eq.
        rewrite (decide_True (P := x ∈ x :: ids)) by apply list_elem_of_here.
        by destruct (decide (x ∈ ids)).
      * rewrite lookup_delete_ne by done.
        destruct (decide (k ∈ ids)) as [Hin|Hin].
        -- rewrite decide_True; [done|]. by apply list_elem_of_further.
        -- rewrite decide_False; [done|].
           intros Hin'. apply elem_of_cons in Hin' as [?|?]; done.
    + intros Hc. rewrite looked_up_app, (Hl1 Hc), Hl2 by congruence. done.
    + apply Forall_app. split.
      * eapply Forall_impl; [exact Hf1|]. intros e He. exists x.
        split; [apply list_elem_of_here|done].
      * eapply Forall_impl; [exact Hf2|]. intros e (cid & Hin & He). exists cid.
        split; [by apply list_elem_of_further|done].
Qed.

(** The ids the sweep collects are those of the entries whose expiry
    lies before the reading of the clock. *)
Lemma elem_of_expired_ids now (m : gmap string container_info) cid :
  cid ∈ expired_ids now m
  <-> exists info, m !! cid = Some info /\ expires_at info < now.
Proof.
  unfold expired_ids. rewrite list_elem_of_fmap. split.
  - intros ([k info] & -> & Hin). exists info.
    apply list_elem_of_In, filter_In in Hin as [Hin Hexp].
    apply list_elem_of_In, elem_of_map_to_list in Hin.
    cbn in *. split; [done|]. apply Z.gtb_lt in Hexp. lia.
  - intros (info & Hm & Hexp). exists (cid, info). split; [done|].
    apply list_elem_of_In, filter_In. split.
    + by apply list_elem_of_In, elem_of_map_to_list.
    + cbn. apply Z.gtb_lt. lia.
Qed.



(** Everything one sweep can do. *)
Lemma sweep_effect (env : oracle) l st :
  let now := env (trace st) UtcNow in
  let expired := expired_ids now (containers (self st)) in
  exists st' evs,
    cleanup_expired_containers env l st = (Ok (), l, st')
    /\ trace st' = (trace st ++ ev UtcNow now :: evs)%list
    /\ client (self st') = client (self st)
    /\ (forall k, containers (self st') !! k
                  = if decide (k ∈ expired) then None else containers (self st) !! k)
    /\ (client (self st) = true -> looked_up evs = expired)
    /\ Forall (fun e => exists cid, cid ∈ expired /\ destroy_target e = Some cid) evs.
Proof.
  intros now expired.
  set (st1 := log_event (ev UtcNow now) st).
  destruct (remove_all_effect env expired l st1)
    as (st' & evs & E & Ht & Hm & Hc & Hl & Hf).
  exists st', evs. split.
  { unfold cleanup_expired_containers, bind, utcnow, ask, get_self.
    cbv beta iota zeta. cbn [self log_event]. fold now. fold st1. fold expired.
    rewrite E. done. }
  split. { rewrite Ht. cbn [st1 trace log_event]. by rewrite <- app_assoc. }
  done.
Qed.






(** C8. [_remove_container] always returns, never raises, and leaves
    the registry without the id, even when the id was not registered
    (then the registry is as before).  When the daemon no longer knows
    the container, so that [containers.get] raises, the lookup is the
    only call made: nothing is stopped or removed a second time.
    Without a client no call is made at all.  Removing the same id
    again changes nothing in the registry. *)
Theorem remove_container_idempotent env cid st :
  exists st',
    run_method (_remove_container env cid) () st = (Ok (), st')
    /\ containers (self st') = delete cid (containers (self st))
    /\ (containers (self st) !! cid = None ->
        containers (self st') = containers (self st))
    /\ (forall e,
          client (self st) = true ->
          env (trace st) (ContainersGet cid) = Raise e ->
          since st st' = [ev (ContainersGet cid) (Raise e)])
    /\ (client (self st) = false -> since st st' = [])
    /\ exists st'',
         run_method (_remove_container env cid) () st' = (Ok (), st'')
         /\ containers (self st'') = containers (self st').
Proof.
  destruct (remove_container_effect env cid () st)
    as (st' & evs & E & Ht & Hm & _ & _ & _ & Hoff & _).
  destruct (remove_container_effect env cid () st')
    as (st'' & evs' & E' & _ & Hm' & _).
  exists st'. unfold run_method. rewrite E. split; [done|].
  split; [done|]. split; [|split; [|split]].
  - intros Hnone. rewrite Hm. by apply delete_id.
  - intros e Hc Hget. apply since_app.
    revert E. unfold _remove_container. unfold_monad.
    rewrite Hc. cbv beta iota. rewrite Hget. cbv beta iota.
    destruct (containers (self st) !! cid) eqn:Hcid.
    all: cbn [self containers log_event].
    all: rewrite Hcid.
    all: intros [= <-]; reflexivity.
  - intros Hc. apply since_app. rewrite Ht, (Hoff Hc). done.
  - exists st''. rewrite E'. split; [done|].
    rewrite Hm', Hm. apply delete_id, lookup_delete_eq.
Qed.

Lemma remove_container_idempotent_witness :
  exists st',
    run_method (_remove_container (gone "ok") "c0ffee") () (holding "c0ffee" 5)
      = (Ok (), st')
    /\ containers (self st') = ∅
    /\ since (holding "c0ffee" 5) st'
       = [ev (ContainersGet "c0ffee") (Raise (Exception "404 Client Error: Not Found"))].
Proof.
  destruct (remove_container_idempotent (gone "ok") "c0ffee" (holding "c0ffee" 5))
    as (st' & E & Hm & _ & Hgone & _).
  exists st'. split; [exact E|]. split.
  - rewrite Hm. apply delete_singleton_eq.
  - apply Hgone; reflexivity.
Defined.

(** After [shutdown] the registry is empty, whatever the daemon answered. *)
Lemma shutdown_empties_registry env st :
  exists st',
    run_method (shutdown env) () st = (Ok (), st')
    /\ containers (self st') = ∅.
Proof.
  destruct (remove_all_effect env (fst <$> map_to_list (containers (self st))) () st)
    as (st' & evs & E & _ & Hm & _).
  exists st'. split.
  - unfold run_method, shutdown, bind, get_self. rewrite E. done.
  - apply map_eq. intros k. rewrite Hm, lookup_empty.
    destruct (decide (k ∈ fst <$> map_to_list (containers (self st)))) as [|Hnin];
      [done|].
    destruct (containers (self st) !! k) as [info|] eqn:Hk; [|done].
    exfalso. apply Hnin. apply list_elem_of_fmap. exists (k, info).
    split; [done|]. by apply elem_of_map_to_list.
Qed.

(** ** The test-suite runner *)

(** One round of the loop: the harness of the test case is executed
    once, and one result is appended. *)
Lemma run_test_case_effect env settings code i (tc : gmap string pyval) l st :
  let test_input := dict_get tc "input" (PyStr EmptyString) in
  let expected_output := dict_get tc "expected_output" (PyStr EmptyString) in
  exists out st' tr evs,
    run_method (execute_python_code env settings (wrapped_code test_input code) None None)
               unbound st = (Ok out, st')
    /\ trace st' = (trace st ++ evs)%list
    /\ client (self st') = client (self st)
    /\ (if client (self st) then written evs = [wrapped_code test_input code]
        else evs = [])
    /\ run_test_case env settings code i tc l st
       = (Ok (),
          {| results := results l ++ [tr];
             all_passed := all_passed l && TestCaseResult.passed tr |},
          st')
    /\ TestCaseResult.test_case tr = (i + 1)%nat
    /\ TestCaseResult.input tr = test_input
    /\ TestCaseResult.execution_time tr = ExecutionOutcome.execution_time out
    /\ (ExecutionOutcome.success out = true ->
        exists text,
          ExecutionOutcome.output out = Some text
          /\ TestCaseResult.outcome tr = TestCaseResult.Actual (strip text)
          /\ TestCaseResult.expected tr = PyStr (strip (str expected_output))
          /\ TestCaseResult.passed tr
             = bool_decide (strip text = strip (str expected_output)))
    /\ (ExecutionOutcome.success out = false ->
        TestCaseResult.outcome tr
        = TestCaseResult.Failure (ExecutionOutcome.error out) (ExecutionOutcome.output out)
        /\ TestCaseResult.expected tr = expected_output
        /\ TestCaseResult.passed tr = false).
Proof.
  intros test_input expected_output.
  destruct (execute_python_code_effect env settings
              (wrapped_code test_input code) None None st)
    as (out & l' & st' & evs & E & Ht & _ & Hc & _ & _ & Hout & Hw & _).
  exists out, st'.
  cut (exists tr,
    run_method (execute_python_code env settings (wrapped_code test_input code) None None)
               unbound st = (Ok out, st')
    /\ run_test_case env settings code i tc l st
       = (Ok (),
          {| results := results l ++ [tr];
             all_passed := all_passed l && TestCaseResult.passed tr |},
          st')
    /\ TestCaseResult.test_case tr = (i + 1)%nat
    /\ TestCaseResult.input tr = test_input
    /\ TestCaseResult.execution_time tr = ExecutionOutcome.execution_time out
    /\ (ExecutionOutcome.success out = true ->
        exists text,
          ExecutionOutcome.output out = Some text
          /\ TestCaseResult.outcome tr = TestCaseResult.Actual (strip text)
          /\ TestCaseResult.expected tr = PyStr (strip (str expected_output))
          /\ TestCaseResult.passed tr
             = bool_decide (strip text = strip (str expected_output)))
    /\ (ExecutionOutcome.success out = false ->
        TestCaseResult.outcome tr
        = TestCaseResult.Failure (ExecutionOutcome.error out) (ExecutionOutcome.output out)
        /\ TestCaseResult.expected tr = expected_output
        /\ TestCaseResult.passed tr = false)).
  { intros (tr & H1 & H2). exists tr, evs. done. }
  unfold run_test_case, run_method. fold test_input. fold expected_output.
  unfold bind at 1. unfold invoke. rewrite E.
  destruct (ExecutionOutcome.success out) eqn:Hs.
  - destruct (Hout eq_refl) as [text Htext]. rewrite Htext.
    exists {| TestCaseResult.test_case := i + 1;
              TestCaseResult.passed :=
                bool_decide (strip text = strip (str expected_output));
              TestCaseResult.input := test_input;
              TestCaseResult.expected := PyStr (strip (str expected_output));
              TestCaseResult.outcome := TestCaseResult.Actual (strip text);
              TestCaseResult.execution_time := ExecutionOutcome.execution_time out |}.
    split; [reflexivity|].
    unfold bind, ret, set_local. cbn [TestCaseResult.passed].
    split.
    { destruct (bool_decide (strip text = strip (str expected_output)));
        cbn [negb results all_passed]; by rewrite ?andb_true_r, ?andb_false_r. }
    cbn. repeat split; try done. intros _. by exists text.
  - exists {| TestCaseResult.test_case := i + 1;
              TestCaseResult.passed := false;
              TestCaseResult.input := test_input;
              TestCaseResult.expected := expected_output;
              TestCaseResult.outcome :=
                TestCaseResult.Failure (ExecutionOutcome.error out)
                                       (ExecutionOutcome.output out);
              TestCaseResult.execution_time := ExecutionOutcome.execution_time out |}.
    split; [reflexivity|].
    unfold bind, set_local. cbn [TestCaseResult.passed results all_passed].
    split; [by rewrite andb_false_r|].
    cbn. repeat split; done.
Qed.

(** The whole loop: one result per test case, appended in order. *)
Lemma run_loop_effect env settings code (tcs : list (gmap string pyval)) :
  forall i l st,
  exists l' st' new evs,
    for_each (enumerate_from i tcs)
             (fun it => run_test_case env settings code (fst it) (snd it)) l st
      = (Ok (), l', st')
    /\ trace st' = (trace st ++ evs)%list
    /\ client (self st') = client (self st)
    /\ (client (self st) = true ->
        written evs
        = (fun tc => wrapped_code (dict_get tc "input" (PyStr EmptyString)) code) <$> tcs)
    /\ results l' = (results l ++ new)%list
    /\ all_passed l' = all_passed l && forallb TestCaseResult.passed new
    /\ length new = length tcs
    /\ forall k tc,
         tcs !! k = Some tc ->
         exists tr,
           new !! k = Some tr
           /\ TestCaseResult.test_case tr = (i + k + 1)%nat
           /\ TestCaseResult.input tr = dict_get tc "input" (PyStr EmptyString)
           /\ match TestCaseResult.outcome tr with
              | TestCaseResult.Actual a =>
                  TestCaseResult.expected tr
                  = PyStr (strip (str (dict_get tc "expected_output" (PyStr EmptyString))))
                  /\ TestCaseResult.passed tr
                     = bool_decide
                         (a = strip (str (dict_get tc "expected_output" (PyStr EmptyString))))
              | TestCaseResult.Failure _ _ =>
                  TestCaseResult.expected tr
                  = dict_get tc "expected_output" (PyStr EmptyString)
                  /\ TestCaseResult.passed tr = false
              end.
Proof.
  induction tcs as [|tc tcs IH]; intros i l st.
  - exists l, st, [], []. cbn [enumerate_from for_each]. unfold ret.
    rewrite !app_nil_r, andb_true_r. repeat split; done.
  - destruct (run_test_case_effect env settings code i tc l st)
      as (out & st1 & tr & evs1 & _ & Ht1 & Hc1 & Hw1 & E1 & Hi & Hin & _ & Hok & Hko).
    destruct (IH (S i) {| results := results l ++ [tr];
                          all_passed := all_passed l && TestCaseResult.passed tr |} st1)
      as (l' & st' & new & evs2 & E2 & Ht2 & Hc2 & Hw2 & Hres & Hall & Hlen & Hnew).
    exists l', st', (tr :: new), (evs1 ++ evs2)%list.
    cbn [enumerate_from for_each fst snd]. unfold bind at 1. rewrite E1, E2.
    split; [done|]. cbn [results all_passed] in Hres, Hall.
    split; [by rewrite Ht2, Ht1, app_assoc|].
    split; [congruence|].
    split.
    { intros Hc. rewrite Hc in Hw1. unfold written in *.
      rewrite omap_app, Hw1, Hw2 by congruence. done. }
    split; [by rewrite Hres, <- app_assoc|].
    split; [by rewrite Hall, <- andb_assoc|].
    split; [by cbn [length]; rewrite Hlen|].
    intros [|k] tc' Hk.
    + injection Hk as <-. exists tr. split; [done|].
      split; [rewrite Hi; lia|]. split; [done|].
      destruct (ExecutionOutcome.success out).
      * destruct (Hok eq_refl) as (text & _ & -> & Hexp & Hp). done.
      * destruct (Hko eq_refl) as (-> & Hexp & Hp). done.
    + destruct (Hnew k tc' Hk) as (tr' & Hk' & Hi' & Hrest).
      exists tr'. split; [done|]. split; [lia|done].
Qed.

Lemma forallb_count {A} (p : A -> bool) (l : list A) :
  forallb p l = true <-> length (List.filter p l) = length l.
Proof.
  induction l as [|x l IH]; cbn [forallb List.filter length]; [done|].
  destruct (p x); cbn [andb length].
  - rewrite IH. split; [congruence|]. by intros [=].
  - split; [discriminate|]. intros Hlen.
    pose proof (List.filter_length_le p l). lia.
Qed.

(** [execute_code_with_tests] returns the record built from the
    results of the loop. *)
Lemma suite_effect env settings code (tcs : list (gmap string pyval)) l st :
  exists sr st',
    run_method (execute_code_with_tests env settings code tcs) l st = (Ok sr, st')
    /\ (client (self st) = true ->
        written (since st st')
        = (fun tc => wrapped_code (dict_get tc "input" (PyStr EmptyString)) code) <$> tcs)
    /\ SuiteResult.success sr = forallb TestCaseResult.passed (SuiteResult.test_results sr)
    /\ SuiteResult.total_tests sr = length tcs
    /\ SuiteResult.passed_tests sr
       = length (List.filter TestCaseResult.passed (SuiteResult.test_results sr))
    /\ length (SuiteResult.test_results sr) = length tcs
    /\ forall k tc,
         tcs !! k = Some tc ->
         exists tr,
           SuiteResult.test_results sr !! k = Some tr
           /\ TestCaseResult.test_case tr = (k + 1)%nat
           /\ TestCaseResult.input tr = dict_get tc "input" (PyStr EmptyString)
           /\ match TestCaseResult.outcome tr with
              | TestCaseResult.Actual a =>
                  TestCaseResult.expected tr
                  = PyStr (strip (str (dict_get tc "expected_output" (PyStr EmptyString))))
                  /\ TestCaseResult.passed tr
                     = bool_decide
                         (a = strip (str (dict_get tc "expected_output" (PyStr EmptyString))))
              | TestCaseResult.Failure _ _ =>
                  TestCaseResult.expected tr
                  = dict_get tc "expected_output" (PyStr EmptyString)
                  /\ TestCaseResult.passed tr = false
              end.
Proof.
  destruct (run_loop_effect env settings code tcs 0%nat fresh_suite st)
    as (l' & st' & new & evs & E & Ht & _ & Hw & Hres & Hall & Hlen & Hnew).
  cbn [fresh_suite results all_passed app andb] in Hres, Hall.
  eexists _, st'. split.
  { unfold run_method, execute_code_with_tests.
    unfold bind, set_local, get_local, ret. rewrite E. reflexivity. }
  split; [by rewrite (since_app _ _ _ Ht)|].
  cbn [SuiteResult.success SuiteResult.test_results SuiteResult.total_tests
       SuiteResult.passed_tests].
  rewrite Hres. repeat split; try done.
Qed.

(** C3. Whatever the daemon does and whatever the test cases are,
    [execute_code_with_tests] returns a record in which [passed_tests]
    counts the results whose [passed] flag is true, [total_tests] is the
    number of test cases, and [success] is true exactly when the two
    counts agree; for the empty list the total is 0 and [success] is
    true. *)
Theorem suite_counts env settings code (test_cases : list (gmap string pyval)) l st :
  exists sr st',
    run_method (execute_code_with_tests env settings code test_cases) l st = (Ok sr, st')
    /\ SuiteResult.passed_tests sr
       = length (List.filter TestCaseResult.passed (SuiteResult.test_results sr))
    /\ SuiteResult.total_tests sr = length test_cases
    /\ (SuiteResult.success sr = true
        <-> SuiteResult.passed_tests sr = SuiteResult.total_tests sr)
    /\ (test_cases = [] ->
        SuiteResult.total_tests sr = 0%nat /\ SuiteResult.success sr = true).
Proof.
  destruct (suite_effect env settings code test_cases l st)
    as (sr & st' & E & _ & Hs & Ht & Hp & Hlen & _).
  exists sr, st'. split; [done|]. split; [done|]. split; [done|].
  assert (Hiff : SuiteResult.success sr = true
                 <-> SuiteResult.passed_tests sr = SuiteResult.total_tests sr).
  { rewrite Hs, Hp, Ht, <- Hlen. apply forallb_count. }
  split; [exact Hiff|].
  intros ->. cbn [length] in *. split; [done|].
  apply Hiff. rewrite Hp, Ht.
  destruct (SuiteResult.test_results sr); [done|discriminate Hlen].
Qed.

Lemma suite_counts_witness :
  exists sr st',
    run_method (execute_code_with_tests (calm ("true" ++ nl)) default_settings
                  "def solution(x): return True" [wants_true; bare_case])
               fresh_suite (boot true) = (Ok sr, st')
    /\ SuiteResult.total_tests sr = 2%nat
    /\ SuiteResult.passed_tests sr = 1%nat
    /\ SuiteResult.success sr <> true.
Proof.
  destruct (suite_counts (calm ("true" ++ nl)) default_settings
              "def solution(x): return True" [wants_true; bare_case]
              fresh_suite (boot true)) as (sr & st' & E & Hp & Ht & Hiff & _).
  exists sr, st'. split; [exact E|]. split; [exact Ht|].
  assert (Hone : SuiteResult.passed_tests sr = 1%nat).
  { rewrite Hp. vm_compute in E. injection E as <- <-. reflexivity. }
  split; [exact Hone|].
  intros Hs. apply Hiff in Hs. rewrite Hone, Ht in Hs. discriminate Hs.
Defined.

(** C7. [execute_code_with_tests] always returns, with as many results
    as test cases; the result at each position belongs to the test case
    at that position: it carries the position counted from 1 and the
    input of that test case.  With a client, the programs handed to the
    execution unit are the harnesses of the test cases, all of them and
    in their order.  This holds for every behaviour of the daemon, so a
    failing execution of one case does not stop the rest. *)
Theorem suite_one_result_per_case env settings code
    (test_cases : list (gmap string pyval)) l st :
  exists sr st',
    run_method (execute_code_with_tests env settings code test_cases) l st = (Ok sr, st')
    /\ length (SuiteResult.test_results sr) = length test_cases
    /\ (forall k tc,
          test_cases !! k = Some tc ->
          exists tr,
            SuiteResult.test_results sr !! k = Some tr
            /\ TestCaseResult.test_case tr = (k + 1)%nat
            /\ TestCaseResult.input tr = dict_get tc "input" (PyStr EmptyString))
    /\ (client (self st) = true ->
        written (since st st')
        = (fun tc => wrapped_code (dict_get tc "input" (PyStr EmptyString)) code)
            <$> test_cases).
Proof.
  destruct (suite_effect env settings code test_cases l st)
    as (sr & st' & E & Hw & _ & _ & _ & Hlen & Hnew).
  exists sr, st'. split; [done|]. split; [done|]. split; [|done].
  intros k tc Hk. destruct (Hnew k tc Hk) as (tr & Htr & Hi & Hin & _).
  exists tr. done.
Qed.

Lemma suite_one_result_per_case_witness :
  exists sr st',
    run_method (execute_code_with_tests (stop_fails "ok") default_settings
                  "def solution(x): return True" [wants_true; bare_case])
               fresh_suite (boot true) = (Ok sr, st')
    /\ length (SuiteResult.test_results sr) = 2%nat
    /\ written (since (boot true) st')
       = [wrapped_code (PyStr "[1]") "def solution(x): return True";
          wrapped_code (PyStr EmptyString) "def solution(x): return True"].
Proof.
  destruct (suite_one_result_per_case (stop_fails "ok") default_settings
              "def solution(x): return True" [wants_true; bare_case]
              fresh_suite (boot true)) as (sr & st' & E & Hlen & _ & Hw).
  exists sr, st'. split; [exact E|]. split; [exact Hlen|].
  apply Hw. reflexivity.
Defined.

(** C5. In one round of the loop the harness is executed once and one
    result is appended.  If the outcome has success true, the result
    carries the trimmed output as actual text and is passed exactly when
    that text equals the trimmed expected output.  If the outcome has
    success false, the result is failed and carries the error and the
    output of the outcome as they are.  In the record the suite returns,
    every result with an actual text is passed exactly when that text
    equals the trimmed expected output of its test case, and every
    result with an error is failed. *)
Theorem suite_compares_trimmed_output env settings code :
  (forall i (tc : gmap string pyval) l st,
     exists out st' tr,
       run_method
         (execute_python_code env settings
            (wrapped_code (dict_get tc "input" (PyStr EmptyString)) code) None None)
         unbound st = (Ok out, st')
       /\ run_test_case env settings code i tc l st
          = (Ok (),
             {| results := results l ++ [tr];
                all_passed := all_passed l && TestCaseResult.passed tr |},
             st')
       /\ (ExecutionOutcome.success out = true ->
           exists text,
             ExecutionOutcome.output out = Some text
             /\ TestCaseResult.outcome tr = TestCaseResult.Actual (strip text)
             /\ (TestCaseResult.passed tr = true
                 <-> strip text
                     = strip (str (dict_get tc "expected_output" (PyStr EmptyString)))))
       /\ (ExecutionOutcome.success out = false ->
           TestCaseResult.passed tr = false
           /\ TestCaseResult.outcome tr
              = TestCaseResult.Failure (ExecutionOutcome.error out)
                                       (ExecutionOutcome.output out)))
  /\ (forall (test_cases : list (gmap string pyval)) l st,
        exists sr st',
          run_method (execute_code_with_tests env settings code test_cases) l st
            = (Ok sr, st')
          /\ forall k tc,
               test_cases !! k = Some tc ->
               exists tr,
                 SuiteResult.test_results sr !! k = Some tr
                 /\ match TestCaseResult.outcome tr with
                    | TestCaseResult.Actual actual =>
                        TestCaseResult.passed tr = true
                        <-> actual
                            = strip (str (dict_get tc "expected_output" (PyStr EmptyString)))
                    | TestCaseResult.Failure _ _ => TestCaseResult.passed tr = false
                    end).
Proof.
  split.
  - intros i tc l st.
    destruct (run_test_case_effect env settings code i tc l st)
      as (out & st' & tr & evs & E & _ & _ & _ & Er & _ & _ & _ & Hok & Hko).
    exists out, st', tr. split; [done|]. split; [done|]. split.
    + intros Hs. destruct (Hok Hs) as (text & Ho & Ha & _ & Hp).
      exists text. split; [done|]. split; [done|].
      rewrite Hp. apply bool_decide_eq_true.
    + intros Hs. destruct (Hko Hs) as (Ha & _ & Hp). done.
  - intros test_cases l st.
    destruct (suite_effect env settings code test_cases l st)
      as (sr & st' & E & _ & _ & _ & _ & _ & Hnew).
    exists sr, st'. split; [done|].
    intros k tc Hk. destruct (Hnew k tc Hk) as (tr & Htr & _ & _ & Hm).
    exists tr. split; [done|].
    destruct (TestCaseResult.outcome tr) as [actual|err out].
    + destruct Hm as [_ ->]. apply bool_decide_eq_true.
    + by destruct Hm.
Qed.

Lemma suite_compares_trimmed_output_witness :
  exists out st' tr,
    run_method
      (execute_python_code (calm (" true" ++ nl)) default_settings
         (wrapped_code (PyStr "[1]") "def solution(x): return True") None None)
      unbound (boot true) = (Ok out, st')
    /\ run_test_case (calm (" true" ++ nl)) default_settings
                     "def solution(x): return True" 0 wants_true fresh_suite (boot true)
       = (Ok (), {| results := [tr]; all_passed := true && TestCaseResult.passed tr |}, st')
    /\ TestCaseResult.passed tr = true.
Proof.
  destruct (suite_compares_trimmed_output (calm (" true" ++ nl)) default_settings
              "def solution(x): return True") as [Hround _].
  destruct (Hround 0%nat wants_true fresh_suite (boot true))
    as (out & st' & tr & E & Er & Hok & _).
  exists out, st', tr. split; [exact E|]. split; [exact Er|].
  vm_compute in E. injection E as <- <-.
  destruct (Hok eq_refl) as (text & Ho & _ & Hp).
  injection Ho as <-. apply Hp. reflexivity.
Defined.

Lemma dict_get_missing (d : gmap string pyval) key default :
  d !! key = None -> dict_get d key default = default.
Proof. unfold dict_get. by intros ->. Qed.

Lemma dict_get_insert_eq (d : gmap string pyval) key v default :
  dict_get (<[key:=v]> d) key default = v.
Proof. unfold dict_get. by rewrite lookup_insert_eq. Qed.

Lemma dict_get_insert_ne (d : gmap string pyval) key key' v default :
  key <> key' -> dict_get (<[key:=v]> d) key' default = dict_get d key' default.
Proof. intros Hne. unfold dict_get. by rewrite lookup_insert_ne. Qed.

(** C10. A test case without ["input"] runs exactly as the same test
    case with ["input"] set to the empty string, and likewise for
    ["expected_output"].  The suite returns its record for every list
    of mappings, and the result of a test case that lacks a key shows
    the empty string in its place. *)
Theorem incomplete_test_case_defaults env settings code :
  (forall i (tc : gmap string pyval),
     tc !! "input" = None ->
     run_test_case env settings code i tc
     = run_test_case env settings code i (<["input" := PyStr EmptyString]> tc))
  /\ (forall i (tc : gmap string pyval),
        tc !! "expected_output" = None ->
        run_test_case env settings code i tc
        = run_test_case env settings code i (<["expected_output" := PyStr EmptyString]> tc))
  /\ (forall (test_cases : list (gmap string pyval)) l st,
        exists sr st',
          run_method (execute_code_with_tests env settings code test_cases) l st
            = (Ok sr, st')
          /\ forall k tc,
               test_cases !! k = Some tc ->
               exists tr,
                 SuiteResult.test_results sr !! k = Some tr
                 /\ (tc !! "input" = None ->
                     TestCaseResult.input tr = PyStr EmptyString)
                 /\ (tc !! "expected_output" = None ->
                     TestCaseResult.expected tr = PyStr EmptyString)).
Proof.
  split; [|split].
  - intros i tc Hnone. unfold run_test_case.
    rewrite dict_get_insert_eq, dict_get_insert_ne by done.
    by rewrite (dict_get_missing tc "input") by done.
  - intros i tc Hnone. unfold run_test_case.
    rewrite dict_get_insert_eq, dict_get_insert_ne by done.
    by rewrite (dict_get_missing tc "expected_output") by done.
  - intros test_cases l st.
    destruct (suite_effect env settings code test_cases l st)
      as (sr & st' & E & _ & _ & _ & _ & _ & Hnew).
    exists sr, st'. split; [done|].
    intros k tc Hk. destruct (Hnew k tc Hk) as (tr & Htr & _ & Hin & Hm).
    exists tr. split; [done|]. split.
    + intros Hnone. by rewrite Hin, dict_get_missing.
    + intros Hnone. rewrite dict_get_missing in Hm by done.
      destruct (TestCaseResult.outcome tr); by destruct Hm as [-> _].
Qed.

Lemma incomplete_test_case_defaults_witness :
  exists sr st',
    run_method (execute_code_with_tests (calm "ok") default_settings
                  "def solution(): return 1" [bare_case])
               fresh_suite (boot true) = (Ok sr, st')
    /\ exists tr,
         SuiteResult.test_results sr !! 0%nat = Some tr
         /\ TestCaseResult.input tr = PyStr EmptyString
         /\ TestCaseResult.expected tr = PyStr EmptyString.
Proof.
  destruct (incomplete_test_case_defaults (calm "ok") default_settings
              "def solution(): return 1") as (_ & _ & Hsuite).
  destruct (Hsuite [bare_case] fresh_suite (boot true)) as (sr & st' & E & Hres).
  exists sr, st'. split; [exact E|].
  destruct (Hres 0%nat bare_case eq_refl) as (tr & Htr & Hin & Hexp).
  exists tr. split; [exact Htr|]. split.
  - apply Hin. reflexivity.
  - apply Hexp. reflexivity.
Defined.

(** ** The harness *)



(** * Further properties *)

(** ** The execution unit, call by call *)

(** With a client, the calls of one [execute_python_code] and what they
    decide: the arguments of the container, the timeout of the wait,
    and the outcome. *)
Lemma execute_python_code_calls env settings code ti to st :
  client (self st) = true ->
  exists out l' st' evs,
    execute_python_code env settings code ti to unbound st = (Ok out, l', st')
    /\ trace st' = (trace st ++ evs)%list
    /\ (length (create_calls evs) <= 1)%nat
    /\ Forall (fun args =>
                 image args = "python:3.11-slim"
                 /\ network_mode args = "none"
                 /\ detach args = true
                 /\ mem_limit args = DOCKER_MEMORY_LIMIT settings
                 /\ cpu_quota args = DOCKER_CPU_QUOTA settings
                 /\ stdin_open args = match ti with Some (String _ _) => true | _ => false end
                 /\ exists dir file,
                      command args = ["python"; "/code/" ++ file]
                      /\ volumes args = [(dir, ("/code", "ro"))])
              (create_calls evs)
    /\ Forall (fun t => t = timeout_or_default settings to) (wait_timeouts evs)
    /\ ((exists e, provision_failures evs = [e] /\ wait_answers evs = []
                   /\ ExecutionOutcome.success out = false
                   /\ ExecutionOutcome.output out = None
                   /\ ExecutionOutcome.error out = Some (exn_msg e))
        \/ (provision_failures evs = [] /\
            ((exists status logs,
                wait_answers evs = [Ok status] /\ logs_answers evs = [Ok logs]
                /\ ExecutionOutcome.output out = Some logs
                /\ ExecutionOutcome.success out = (default 1 status =? 0)
                /\ ExecutionOutcome.error out
                   = if default 1 status =? 0 then None
                     else Some ("Process exited with code " ++ pretty (default 1 status)))
             \/ (exists status e retry,
                   wait_answers evs = [Ok status] /\ logs_answers evs = [Raise e; retry]
                   /\ ExecutionOutcome.success out = false
                   /\ ExecutionOutcome.output out
                      = match retry with Ok logs => Some logs | Raise _ => None end
                   /\ ExecutionOutcome.error out
                      = Some ("Execution timeout or error: " ++ exn_msg e))
             \/ (exists e retry,
                   wait_answers evs = [Raise e] /\ logs_answers evs = [retry]
                   /\ ExecutionOutcome.success out = false
                   /\ ExecutionOutcome.output out
                      = match retry with Ok logs => Some logs | Raise _ => None end
                   /\ ExecutionOutcome.error out
                      = Some ("Execution timeout or error: " ++ exn_msg e))))).
Proof.
  intros Hc. unfold execute_python_code. unfold_monad. rewrite Hc. cbv beta iota.
  fold (timeout_or_default settings to).
  repeat case_step env.
  all: do 4 eexists; (split; [reflexivity|]);
       cbn [trace log_event set_containers self containers client cleanup_task stdout
            ExecutionOutcome.success ExecutionOutcome.error ExecutionOutcome.output];
       rewrite <- ?app_assoc; cbn [app];
       (split; [reflexivity|]).
  all: cbv beta iota zeta delta
         [create_calls wait_timeouts provision_failures wait_answers logs_answers
          omap list_omap create_call wait_timeout provision_failure wait_answer
          logs_answer ev projT1 length].
  all: split; [lia|].
  all: split; [repeat constructor; eauto|].
  all: split; [repeat constructor|].
  all: first
    [ left; eexists; repeat split; reflexivity
    | right; (split; [reflexivity|]);
      first
        [ left; do 2 eexists; (split; [reflexivity|]); (split; [reflexivity|]);
          (split; [reflexivity|]);
          match goal with H : (default 1 _ =? 0) = _ |- _ => rewrite H end;
          split; reflexivity
        | right; left; do 3 eexists; repeat split; reflexivity
        | right; right; do 2 eexists; repeat split; reflexivity ] ].
Qed.

(** The calls of one [execute_python_code], with or without a client,
    as seen from [run_method]. *)
Lemma execute_run_calls env settings code ti to st out st' :
  run_method (execute_python_code env settings code ti to) unbound st = (Ok out, st') ->
  (client (self st) = false /\ since st st' = [])
  \/ (client (self st) = true
      /\ exists l' evs,
           execute_python_code env settings code ti to unbound st = (Ok out, l', st')
           /\ since st st' = evs
           /\ trace st' = (trace st ++ evs)%list).
Proof.
  intros E. destruct (client (self st)) eqn:Hc.
  - right. split; [done|].
    destruct (execute_python_code_calls env settings code ti to st Hc)
      as (out' & l' & st'' & evs & E' & Ht & _).
    unfold run_method in E. rewrite E' in E. injection E as <- <-.
    exists l', evs. split; [done|]. split; [by apply since_app|done].
  - left. split; [done|].
    destruct (execute_python_code_effect env settings code ti to st)
      as (out' & l' & st'' & evs & E' & Ht & _ & _ & _ & _ & _ & Hw & _).
    rewrite Hc in Hw. subst evs.
    unfold run_method in E. rewrite E' in E. injection E as <- <-.
    apply since_app. done.
Qed.

(** X1. Every container [execute_python_code] creates, on any path, is
    created from the image python:3.11-slim with networking disabled,
    detached, with the memory limit and CPU quota of the settings, and
    with one mount, read-only, at /code; and a call creates at most one
    container. *)
Theorem execute_creates_isolated env settings code test_input timeout st out st' :
  run_method (execute_python_code env settings code test_input timeout) unbound st
    = (Ok out, st') ->
  (length (create_calls (since st st')) <= 1)%nat
  /\ forall args,
       args ∈ create_calls (since st st') ->
       image args = "python:3.11-slim"
       /\ network_mode args = "none"
       /\ detach args = true
       /\ mem_limit args = DOCKER_MEMORY_LIMIT settings
       /\ cpu_quota args = DOCKER_CPU_QUOTA settings
       /\ exists dir, volumes args = [(dir, ("/code", "ro"))].
Proof.
  intros E.
  destruct (execute_run_calls _ _ _ _ _ _ _ _ E)
    as [[_ ->] | (Hc & l' & evs & E' & _ & _)].
  { split; [cbn; lia|]. intros args Hin. by apply elem_of_nil in Hin. }
  destruct (execute_python_code_calls env settings code test_input timeout st Hc)
    as (out2 & l2 & st2 & evs2 & E2 & Ht2 & Hlen & Hargs & _).
  rewrite E2 in E'. injection E' as <- <- <-.
  rewrite (since_app _ _ _ Ht2).
  split; [done|]. intros args Hin.
  rewrite Forall_forall in Hargs.
  destruct (Hargs args Hin) as (? & ? & ? & ? & ? & _ & dir & file & _ & ?).
  repeat split; try done. by exists dir.
Qed.

Lemma execute_creates_isolated_witness :
  exists args,
    create_calls (since (boot true)
      (snd (run_method
              (execute_python_code (calm "ok") default_settings "print(1)" None None)
              unbound (boot true)))) = [args]
    /\ network_mode args = "none"
    /\ volumes args = [("/tmp", ("/code", "ro"))].
Proof.
  eexists. split; [vm_compute; reflexivity|].
  edestruct (execute_creates_isolated (calm "ok") default_settings "print(1)" None None
               (boot true)) as [_ Hargs].
  { vm_compute. reflexivity. }
  split.
  - eapply Hargs. vm_compute. apply list_elem_of_here.
  - reflexivity.
Defined.

(** X2. The wait of [execute_python_code] is given the caller's timeout
    when there is one other than 0; with no timeout, or a timeout of 0,
    it is given [DOCKER_TIMEOUT]. *)
Theorem execute_wait_timeout env settings code test_input timeout st out st' t :
  run_method (execute_python_code env settings code test_input timeout) unbound st
    = (Ok out, st') ->
  t ∈ wait_timeouts (since st st') ->
  (timeout = None \/ timeout = Some 0 -> t = DOCKER_TIMEOUT settings)
  /\ (forall given, timeout = Some given -> given <> 0 -> t = given).
Proof.
  intros E Hin.
  destruct (execute_run_calls _ _ _ _ _ _ _ _ E)
    as [[_ Hnil] | (Hc & l' & evs & E' & _ & _)].
  { rewrite Hnil in Hin. by apply elem_of_nil in Hin. }
  destruct (execute_python_code_calls env settings code test_input timeout st Hc)
    as (out2 & l2 & st2 & evs2 & E2 & Ht2 & _ & _ & Hwait & _).
  rewrite E2 in E'. injection E' as <- <- <-.
  rewrite (since_app _ _ _ Ht2) in Hin.
  rewrite Forall_forall in Hwait. rewrite (Hwait t Hin).
  unfold timeout_or_default. split.
  - intros [-> | ->]; done.
  - intros given -> Hne. by rewrite (proj2 (Z.eqb_neq given 0) Hne).
Qed.

Lemma execute_wait_timeout_witness :
  wait_timeouts (since (boot true)
    (snd (run_method
            (execute_python_code (calm "ok") default_settings "print(1)" None (Some 0))
            unbound (boot true)))) = [30]
  /\ 30 = DOCKER_TIMEOUT default_settings.
Proof.
  split; [vm_compute; reflexivity|].
  edestruct (execute_wait_timeout (calm "ok") default_settings "print(1)" None (Some 0)
               (boot true)) as [Hdefault _].
  { vm_compute. reflexivity. }
  { vm_compute. apply list_elem_of_here. }
  apply Hdefault. by right.
Defined.

Lemma default_status_zero (status : option Z) :
  (default 1 status =? 0) = true <-> status = Some 0.
Proof.
  destruct status as [z|]; cbn.
  - rewrite Z.eqb_eq. split; [by intros ->|by intros [= ->]].
  - split; discriminate.
Qed.

(** X3. When the wait returns and the logs are read, the outcome
    carries the logs as output; it is a success with no error exactly
    when the status code is 0, and otherwise a failure whose error names
    the status code, a result without status code counting as 1. *)
Theorem execute_exit_status env settings code test_input timeout st out st' status logs :
  run_method (execute_python_code env settings code test_input timeout) unbound st
    = (Ok out, st') ->
  wait_answers (since st st') = [Ok status] ->
  logs_answers (since st st') = [Ok logs] ->
  ExecutionOutcome.output out = Some logs
  /\ (status = Some 0 ->
      ExecutionOutcome.success out = true /\ ExecutionOutcome.error out = None)
  /\ (status <> Some 0 ->
      ExecutionOutcome.success out = false
      /\ ExecutionOutcome.error out
         = Some ("Process exited with code " ++ pretty (default 1 status))).
Proof.
  intros E Hw Hl.
  destruct (execute_run_calls _ _ _ _ _ _ _ _ E)
    as [[_ Hnil] | (Hc & l' & evs & E' & _ & _)].
  { rewrite Hnil in Hw. discriminate Hw. }
  destruct (execute_python_code_calls env settings code test_input timeout st Hc)
    as (out2 & l2 & st2 & evs2 & E2 & Ht2 & _ & _ & _ & Hcases).
  rewrite E2 in E'. injection E' as <- <- <-.
  rewrite (since_app _ _ _ Ht2) in Hw, Hl.
  destruct Hcases as [(e & _ & Hw' & _) | (_ & [Hcase | [Hcase | Hcase]])].
  - rewrite Hw' in Hw. discriminate Hw.
  - destruct Hcase as (status' & logs' & Hw' & Hl' & Ho & Hs & He).
    rewrite Hw' in Hw. injection Hw as ->.
    rewrite Hl' in Hl. injection Hl as ->.
    split; [done|]. split.
    + intros Hz. apply default_status_zero in Hz. rewrite Hz in Hs, He. done.
    + intros Hnz. destruct (default 1 status =? 0) eqn:Hz.
      * apply default_status_zero in Hz. done.
      * done.
  - destruct Hcase as (status' & e & retry & _ & Hl' & _).
    rewrite Hl' in Hl. discriminate Hl.
  - destruct Hcase as (e & retry & Hw' & _).
    rewrite Hw' in Hw. discriminate Hw.
Qed.

Lemma execute_exit_status_witness :
  exists out st',
    run_method (execute_python_code (exits_with None "partial") default_settings
                  "print(1)" None None) unbound (boot true) = (Ok out, st')
    /\ ExecutionOutcome.success out = false
    /\ ExecutionOutcome.error out = Some "Process exited with code 1".
Proof.
  do 2 eexists. split; [vm_compute; reflexivity|].
  edestruct (execute_exit_status (exits_with None "partial") default_settings
               "print(1)" None None (boot true)) as (_ & _ & Hfail).
  { vm_compute. reflexivity. }
  { vm_compute. reflexivity. }
  { vm_compute. reflexivity. }
  apply Hfail. discriminate.
Defined.

(** X4. When the wait raises (a timeout is one such exception), or the
    wait returns and reading the logs raises, the outcome is a failure
    whose error is "Execution timeout or error: " followed by the
    message of the exception; its output is what a further reading of
    the logs gives, and null if that raises too. *)
Theorem execute_wait_fault env settings code test_input timeout st out st' e :
  run_method (execute_python_code env settings code test_input timeout) unbound st
    = (Ok out, st') ->
  (exists retry,
     wait_answers (since st st') = [Raise e]
     /\ logs_answers (since st st') = [retry])
  \/ (exists status retry,
        wait_answers (since st st') = [Ok status]
        /\ logs_answers (since st st') = [Raise e; retry]) ->
  ExecutionOutcome.success out = false
  /\ ExecutionOutcome.error out = Some ("Execution timeout or error: " ++ exn_msg e)
  /\ ExecutionOutcome.output out
     = match last (logs_answers (since st st')) with
       | Some (Ok logs) => Some logs
       | _ => None
       end.
Proof.
  intros E Hfault.
  destruct (execute_run_calls _ _ _ _ _ _ _ _ E)
    as [[_ Hnil] | (Hc & l' & evs & E' & _ & _)].
  { rewrite Hnil in Hfault.
    destruct Hfault as [(? & Hw & _) | (? & ? & Hw & _)]; discriminate Hw. }
  destruct (execute_python_code_calls env settings code test_input timeout st Hc)
    as (out2 & l2 & st2 & evs2 & E2 & Ht2 & _ & _ & _ & Hcases).
  rewrite E2 in E'. injection E' as <- <- <-.
  rewrite (since_app _ _ _ Ht2) in *.
  destruct Hcases as [(e' & _ & Hw' & _) | (_ & [Hcase | [Hcase | Hcase]])].
  - rewrite Hw' in Hfault.
    destruct Hfault as [(? & Hw & _) | (? & ? & Hw & _)]; discriminate Hw.
  - destruct Hcase as (status' & logs' & Hw' & Hl' & _).
    rewrite Hw', Hl' in Hfault.
    destruct Hfault as [(? & Hw & _) | (? & ? & _ & Hl)]; discriminate.
  - destruct Hcase as (status' & e' & retry & Hw' & Hl' & Hs & Ho & He).
    rewrite Hw', Hl' in Hfault. rewrite Hl'.
    destruct Hfault as [(? & Hw & _) | (? & ? & _ & Hl)]; [discriminate Hw|].
    injection Hl as ? ?; subst. cbn [last]. rewrite Ho, He. by repeat case_match.
  - destruct Hcase as (e' & retry & Hw' & Hl' & Hs & Ho & He).
    rewrite Hw', Hl' in Hfault. rewrite Hl'.
    destruct Hfault as [(? & Hw & _) | (? & ? & Hw & _)]; [|discriminate Hw].
    injection Hw as ?; subst. cbn [last]. rewrite Ho, He. by repeat case_match.
Qed.

Lemma execute_wait_fault_witness :
  exists out st',
    run_method (execute_python_code (times_out "partial") default_settings
                  "while True: pass" None None) unbound (boot true) = (Ok out, st')
    /\ ExecutionOutcome.success out = false
    /\ ExecutionOutcome.error out = Some "Execution timeout or error: Read timed out."
    /\ ExecutionOutcome.output out = Some "partial".
Proof.
  do 2 eexists. split; [vm_compute; reflexivity|].
  edestruct (execute_wait_fault (times_out "partial") default_settings
               "while True: pass" None None (boot true)) as (Hs & He & Ho).
  { vm_compute. reflexivity. }
  { left. eexists. split; vm_compute; reflexivity. }
  split; [exact Hs|]. split; [exact He|]. exact Ho.
Defined.

(** X5. When the temporary file, [containers.create] or
    [container.start] raises, the outcome is a failure with the message
    of that exception as error and no output, and the container is
    never waited for. *)
Theorem execute_provision_failure env settings code test_input timeout st out st' e :
  run_method (execute_python_code env settings code test_input timeout) unbound st
    = (Ok out, st') ->
  e ∈ provision_failures (since st st') ->
  ExecutionOutcome.success out = false
  /\ ExecutionOutcome.output out = None
  /\ ExecutionOutcome.error out = Some (exn_msg e)
  /\ wait_answers (since st st') = [].
Proof.
  intros E Hin.
  destruct (execute_run_calls _ _ _ _ _ _ _ _ E)
    as [[_ Hnil] | (Hc & l' & evs & E' & _ & _)].
  { rewrite Hnil in Hin. by apply elem_of_nil in Hin. }
  destruct (execute_python_code_calls env settings code test_input timeout st Hc)
    as (out2 & l2 & st2 & evs2 & E2 & Ht2 & _ & _ & _ & Hcases).
  rewrite E2 in E'. injection E' as <- <- <-.
  rewrite (since_app _ _ _ Ht2) in *.
  destruct Hcases as [(e' & Hp & Hw & Hs & Ho & He) | (Hp & _)].
  - rewrite Hp in Hin. apply list_elem_of_singleton in Hin as ->. done.
  - rewrite Hp in Hin. by apply elem_of_nil in Hin.
Qed.

Lemma execute_provision_failure_witness :
  exists out st',
    run_method (execute_python_code (no_image "ok") default_settings
                  "print(1)" None None) unbound (boot true) = (Ok out, st')
    /\ ExecutionOutcome.error out = Some "404 Client Error: No such image"
    /\ containers (self st') = ∅.
Proof.
  do 2 eexists. split; [vm_compute; reflexivity|].
  edestruct (execute_provision_failure (no_image "ok") default_settings
               "print(1)" None None (boot true)) as (_ & _ & He & _).
  { vm_compute. reflexivity. }
  { vm_compute. apply list_elem_of_here. }
  split; [exact He|]. reflexivity.
Defined.

(** X6. [execute_python_code] leaves alone every registry entry other
    than that of the container it created, and it never changes the
    client, the sweep task or what the service has printed. *)
Theorem execute_frame env settings code test_input timeout st out st' :
  run_method (execute_python_code env settings code test_input timeout) unbound st
    = (Ok out, st') ->
  (forall cid,
     cid ∉ created (since st st') ->
     containers (self st') !! cid = containers (self st) !! cid)
  /\ client (self st') = client (self st)
  /\ cleanup_task (self st') = cleanup_task (self st)
  /\ stdout st' = stdout st.
Proof.
  intros E.
  destruct (execute_python_code_effect env settings code test_input timeout st)
    as (out2 & l2 & st2 & evs & E2 & Ht & Hout & Hc & Hk & _ & _ & _ & Hreg).
  unfold run_method in E. rewrite E2 in E. injection E as <- <-.
  rewrite (since_app _ _ _ Ht).
  split; [|done].
  intros cid Hnin.
  destruct Hreg as [[_ ->] | (cid0 & Hcr & [(_ & _ & ->) | (_ & info & ->)])];
    [done| |].
  - rewrite Hcr in Hnin. rewrite lookup_delete_ne; [done|].
    intros ->. apply Hnin, list_elem_of_here.
  - rewrite Hcr in Hnin. rewrite lookup_insert_ne; [done|].
    intros ->. apply Hnin, list_elem_of_here.
Qed.

Lemma execute_frame_witness :
  containers (self (snd (run_method
    (execute_python_code (stop_fails "ok") default_settings "print(1)" None None)
    unbound (holding "other" 7)))) !! "other"
  = Some {| created_at := 0; expires_at := 7 |}.
Proof.
  edestruct (execute_frame (stop_fails "ok") default_settings "print(1)" None None
               (holding "other" 7)) as (Hother & _).
  { vm_compute. reflexivity. }
  rewrite Hother; [reflexivity|].
  vm_compute. intros Hin. apply list_elem_of_singleton in Hin. discriminate Hin.
Defined.

(** ** Shutdown, sweeps and the states a sandbox goes through *)

Lemma remove_all_flags {L} env (ids : list string) (l : L) st st' :
  for_each ids (fun container_id => invoke () (_remove_container env container_id)) l st
    = (Ok (), l, st') ->
  cleanup_task (self st') = cleanup_task (self st)
  /\ (client (self st) = false -> trace st' = trace st).
Proof.
  revert st. induction ids as [|x ids IH]; intros st.
  - cbn [for_each]. unfold ret. by intros [= <-].
  - destruct (remove_container_effect env x () st)
      as (st1 & evs1 & E1 & Ht1 & _ & Hc1 & Hk1 & _ & Hoff1 & _).
    cbn [for_each]. unfold bind at 1. unfold invoke at 1. rewrite E1.
    intros E. destruct (IH st1 E) as [Hk Hoff].
    split; [congruence|].
    intros Hc. rewrite Hoff by congruence. rewrite Ht1, (Hoff1 Hc). apply app_nil_r.
Qed.



Lemma sweep_flags (env : oracle) l st st' :
  cleanup_expired_containers env l st = (Ok (), l, st') ->
  cleanup_task (self st') = cleanup_task (self st).
Proof.
  unfold cleanup_expired_containers, bind, utcnow, ask, get_self.
  cbv beta iota zeta. intros E.
  by destruct (remove_all_flags env _ _ _ _ E) as [-> _].
Qed.

(** X8. Sweeping, any number of times, never adds or alters a registry
    entry: what is registered afterwards was registered before, with
    the same record; the client and the sweep task are untouched.  After
    at least one sweep, every entry whose expiry lay before the first
    reading of the clock is gone. *)
Theorem cleanup_loop_only_removes (env : oracle) ticks st :
  exists st',
    run_method (_cleanup_loop env ticks) () st = (Ok (), st')
    /\ containers (self st') ⊆ containers (self st)
    /\ client (self st') = client (self st)
    /\ cleanup_task (self st') = cleanup_task (self st)
    /\ ((0 < ticks)%nat ->
        forall cid info,
          containers (self st) !! cid = Some info ->
          expires_at info < env (trace st) UtcNow ->
          containers (self st') !! cid = None).
Proof.
  revert st. induction ticks as [|n IH]; intros st.
  - exists st. split; [done|]. split; [done|]. split; [done|]. split; [done|]. lia.
  - destruct (sweep_effect env () st) as (st1 & evs1 & E1 & _ & Hc1 & Hm1 & _).
    pose proof (sweep_flags env () st st1 E1) as Hk1.
    destruct (IH st1) as (st' & E2 & Hsub & Hc2 & Hk2 & _).
    exists st'. split.
    { revert E2. unfold run_method. cbn [_cleanup_loop]. unfold bind at 1.
      unfold invoke. rewrite E1.
      destruct (_cleanup_loop env n () st1) as [[r l'] st2]. done. }
    assert (Hsub1 : containers (self st1) ⊆ containers (self st)).
    { apply map_subseteq_spec. intros k info. rewrite Hm1. by case_decide. }
    split; [by etrans|]. split; [congruence|]. split; [congruence|].
    intros _ cid info Hcid Hexp.
    assert (Hgone : containers (self st1) !! cid = None).
    { rewrite Hm1, decide_True; [done|]. apply elem_of_expired_ids. eauto. }
    destruct (containers (self st') !! cid) as [info'|] eqn:Hcid'; [|done].
    rewrite map_subseteq_spec in Hsub. apply Hsub in Hcid'. congruence.
Qed.

Lemma cleanup_loop_only_removes_witness :
  exists st',
    run_method (_cleanup_loop (calm "ok") 3) () just_tracked = (Ok (), st')
    /\ containers (self st') !! "c0ffee" = None.
Proof.
  destruct (cleanup_loop_only_removes (calm "ok") 3 just_tracked)
    as (st' & E & _ & _ & _ & Hgone).
  exists st'. split; [exact E|].
  apply (Hgone ltac:(lia) "c0ffee" {| created_at := 0; expires_at := 1000000 |}).
  - reflexivity.
  - vm_compute. reflexivity.
Defined.

Lemma created_app evs1 evs2 :
  created (evs1 ++ evs2) = (created evs1 ++ created evs2)%list.
Proof. apply omap_app. Qed.

Lemma created_clocks evs :
  Forall (fun e => is_clock e = true) evs -> created evs = [].
Proof.
  induction 1 as [|[c a] evs Hc _ IH]; [done|].
  unfold created in *. cbn [omap list_omap]. fold (omap created_id evs).
  rewrite IH. unfold is_clock in Hc. cbn [projT1] in Hc.
  by destruct c.
Qed.

Lemma advances_refl st : advances st st.
Proof.
  exists []. unfold grows_by. rewrite app_nil_r.
  repeat split; try done; auto.
Qed.

Lemma advances_trans st1 st2 st3 :
  advances st1 st2 -> advances st2 st3 -> advances st1 st3.
Proof.
  intros (evs1 & Ht1 & Hc1 & Hm1 & Hk1 & Hq1) (evs2 & Ht2 & Hc2 & Hm2 & Hk2 & Hq2).
  exists (evs1 ++ evs2)%list. unfold grows_by.
  split; [by rewrite Ht2, Ht1, app_assoc|]. split; [congruence|].
  split; [|split].
  - intros cid Hcid. rewrite created_app, elem_of_app.
    destruct (Hm2 cid Hcid) as [Hcid'|?]; [|by auto].
    destruct (Hm1 cid Hcid') as [?|?]; auto.
  - intros Hk. destruct (Hk2 Hk) as [Hk'|Hc']; [by auto|].
    right. congruence.
  - intros Hc. apply Forall_app. split; [by auto|]. apply Hq2. congruence.
Qed.

Lemma execute_advances env settings code ti to st :
  advances st (snd (run_method (execute_python_code env settings code ti to) unbound st)).
Proof.
  destruct (execute_python_code_effect env settings code ti to st)
    as (out & l' & st' & evs & E & Ht & _ & Hc & Hk & _ & _ & Hw & Hreg).
  unfold run_method. rewrite E. cbn [snd].
  exists evs. split; [done|]. split; [done|]. split; [|split].
  - intros cid Hcid.
    destruct Hreg as [[_ Hm] | (cid0 & Hcr & [(_ & _ & Hm) | (_ & info & Hm)])];
      rewrite Hm in Hcid.
    + by left.
    + left. destruct (decide (cid = cid0)) as [->|Hne].
      * rewrite lookup_delete_eq in Hcid. by destruct Hcid.
      * by rewrite lookup_delete_ne in Hcid.
    + destruct (decide (cid = cid0)) as [->|Hne].
      * right. rewrite Hcr. apply list_elem_of_here.
      * left. by rewrite lookup_insert_ne in Hcid.
  - intros Hk'. left. congruence.
  - intros Hoff. rewrite Hoff in Hw. by subst evs.
Qed.

Lemma loop_advances env settings code (tcs : list (gmap string pyval)) :
  forall i l st,
    advances st
      (for_each (enumerate_from i tcs)
                (fun it => run_test_case env settings code (fst it) (snd it)) l st).2.
Proof.
  induction tcs as [|tc tcs IH]; intros i l st; [apply advances_refl|].
  destruct (run_test_case_effect env settings code i tc l st)
    as (out & st1 & tr & evs1 & Ex & _ & _ & _ & E1 & _).
  cbn [enumerate_from for_each fst snd]. unfold bind at 1. rewrite E1.
  eapply advances_trans; [|apply IH].
  pose proof (execute_advances env settings
                (wrapped_code (dict_get tc "input" (PyStr EmptyString)) code)
                None None st) as Hadv.
  cbv zeta in Ex. rewrite Ex in Hadv. exact Hadv.
Qed.

Lemma tests_advances env settings code (tcs : list (gmap string pyval)) l st :
  advances st (snd (run_method (execute_code_with_tests env settings code tcs) l st)).
Proof.
  pose proof (loop_advances env settings code tcs 0%nat fresh_suite st) as Hadv.
  destruct (run_loop_effect env settings code tcs 0%nat fresh_suite st)
    as (l' & st' & new & evs & E & _).
  rewrite E in Hadv.
  unfold run_method, execute_code_with_tests, bind, set_local, get_local, ret.
  rewrite E. exact Hadv.
Qed.

Lemma remove_all_advances env (ids : list string) st :
  advances st
    (for_each ids (fun container_id => invoke () (_remove_container env container_id))
              () st).2.
Proof.
  destruct (remove_all_effect env ids () st) as (st' & evs & E & Ht & Hm & Hc & _ & _).
  destruct (remove_all_flags env ids () st st' E) as [Hk Hoff].
  rewrite E. cbn [snd].
  exists evs. split; [done|]. split; [done|]. split; [|split].
  - intros cid Hcid. left. rewrite Hm in Hcid. by case_decide; [destruct Hcid|].
  - intros Hk'. left. congruence.
  - intros Hoff'. specialize (Hoff Hoff'). rewrite Ht in Hoff.
    rewrite <- (app_nil_r (trace st)) in Hoff at 2.
    apply app_inv_head in Hoff. by subst evs.
Qed.

Lemma step_advances env settings st st' :
  step env settings st st' -> advances st st'.
Proof.
  intros [code ti to st0 | code tcs st0 | st0 | st0 | st0].
  - apply execute_advances.
  - apply tests_advances.
  - unfold run_method, cleanup_expired_containers, bind, utcnow, ask, get_self.
    cbv beta iota zeta.
    set (st1 := log_event _ st0).
    set (ids := expired_ids _ _).
    pose proof (remove_all_advances env ids st1) as Hadv.
    destruct (for_each ids _ () st1) as [[r l'] st2]. cbn [snd] in *.
    eapply advances_trans; [|exact Hadv].
    exists [ev UtcNow (env (trace st0) UtcNow)].
    split; [done|]. split; [done|]. split; [by left|]. split; [by left|].
    intros _. by repeat constructor.
  - unfold run_method, start_cleanup_task.
    destruct (client (self st0)) eqn:Hc, (cleanup_task (self st0)) eqn:Hk;
      cbn [andb negb snd]; try apply advances_refl.
    exists []. unfold grows_by. cbn [trace self client containers cleanup_task].
    rewrite app_nil_r, Hc. repeat split; try done; auto.
  - unfold run_method, shutdown, bind, get_self.
    pose proof (remove_all_advances env (map_to_list (containers (self st0))).*1 st0)
      as Hadv.
    destruct (for_each _ _ () st0) as [[r l'] st2]. exact Hadv.
Qed.

Lemma reachable_advances env settings connected st :
  reachable env settings connected st -> advances (boot connected) st.
Proof.
  induction 1 as [|st st' _ IH Hstep]; [apply advances_refl|].
  eapply advances_trans; [exact IH|]. by apply (step_advances env settings).
Qed.

(** X9. A sandbox built without a Docker daemon stays inert through
    every use: it never gets a client, never holds a registry entry,
    never starts the sweep task, and never makes a call other than
    reading a clock. *)
Theorem clientless_sandbox_is_inert env settings st :
  reachable env settings false st ->
  client (self st) = false
  /\ containers (self st) = ∅
  /\ cleanup_task (self st) = false
  /\ Forall (fun e => is_clock e = true) (trace st).
Proof.
  intros Hr. apply reachable_advances in Hr as (evs & Ht & Hc & Hm & Hk & Hq).
  cbn [boot init trace self client containers cleanup_task] in *.
  specialize (Hq eq_refl).
  split; [done|]. split; [|split].
  - apply map_eq. intros cid. rewrite lookup_empty.
    destruct (containers (self st) !! cid) eqn:Hcid; [|done].
    destruct (Hm cid) as [Hin|Hin]; [by rewrite Hcid| |].
    + rewrite lookup_empty in Hin. by destruct Hin.
    + rewrite (created_clocks _ Hq) in Hin. by apply elem_of_nil in Hin.
  - destruct (cleanup_task (self st)); [|done].
    destruct (Hk eq_refl); discriminate.
  - by rewrite Ht.
Qed.

Lemma clientless_sandbox_is_inert_witness :
  Forall (fun e => is_clock e = true)
    (trace (snd (run_method (cleanup_expired_containers (calm "ok")) ()
      (snd (run_method
              (execute_code_with_tests (calm "ok") default_settings
                 "def solution(x): return True" [wants_true])
              fresh_suite (boot false)))))).
Proof.
  eapply (clientless_sandbox_is_inert (calm "ok") default_settings).
  eapply reachable_step; [|apply step_sweep].
  eapply reachable_step; [apply reachable_boot|].
  apply (step_tests (calm "ok") default_settings "def solution(x): return True"
                    [wants_true]).
Defined.

(** X10. Whatever the sandbox has been used for, every id in its
    registry was returned by a [containers.create] that it made and
    that succeeded, the client is present exactly if it was found when
    the sandbox was built, and the sweep task exists only with a
    client. *)
Theorem registry_holds_created_ids env settings connected st :
  reachable env settings connected st ->
  (forall cid, is_Some (containers (self st) !! cid) -> cid ∈ created (trace st))
  /\ client (self st) = connected
  /\ (cleanup_task (self st) = true -> connected = true).
Proof.
  intros Hr. apply reachable_advances in Hr as (evs & Ht & Hc & Hm & Hk & _).
  cbn [boot init trace self client containers cleanup_task] in *.
  split; [|split; [done|]].
  - intros cid Hcid. rewrite Ht. cbn [app].
    destruct (Hm cid Hcid) as [Hin|Hin]; [|done].
    rewrite lookup_empty in Hin. by destruct Hin.
  - intros Hk'. destruct (Hk Hk'); [discriminate|done].
Qed.

Lemma registry_holds_created_ids_witness :
  "c0ffee" ∈ created (trace (snd (run_method
    (execute_python_code (stop_fails "ok") default_settings "print(1)" None None)
    unbound (boot true)))).
Proof.
  eapply (registry_holds_created_ids (stop_fails "ok") default_settings true).
  - eapply reachable_step; [apply reachable_boot|].
    apply (step_execute (stop_fails "ok") default_settings "print(1)" None None).
  - vm_compute. eexists. reflexivity.
Defined.

(** ** The test-suite runner, further *)

Lemma execute_off env settings code ti to st :
  client (self st) = false ->
  execute_python_code env settings code ti to unbound st = (Ok unavailable, unbound, st).
Proof.
  intros Hc. unfold execute_python_code. unfold_monad. by rewrite Hc.
Qed.

Lemma run_test_case_off env settings code i (tc : gmap string pyval) l st :
  client (self st) = false ->
  run_test_case env settings code i tc l st
  = (Ok (),
     {| results := results l ++
          [{| TestCaseResult.test_case := i + 1;
              TestCaseResult.passed := false;
              TestCaseResult.input := dict_get tc "input" (PyStr EmptyString);
              TestCaseResult.expected := dict_get tc "expected_output" (PyStr EmptyString);
              TestCaseResult.outcome :=
                TestCaseResult.Failure (Some "Docker client not available") None;
              TestCaseResult.execution_time := 0 |}];
        all_passed := false |},
     st).
Proof.
  intros Hc. unfold run_test_case. unfold bind at 1. unfold invoke.
  rewrite (execute_off _ _ _ _ _ _ Hc). reflexivity.
Qed.

Lemma loop_off env settings code st :
  client (self st) = false ->
  forall (tcs : list (gmap string pyval)) i l,
  exists new,
    for_each (enumerate_from i tcs)
             (fun it => run_test_case env settings code (fst it) (snd it)) l st
    = (Ok (),
       {| results := results l ++ new;
          all_passed := all_passed l && bool_decide (tcs = []) |},
       st)
    /\ length new = length tcs
    /\ List.filter TestCaseResult.passed new = []
    /\ forall k tc,
         tcs !! k = Some tc ->
         new !! k
         = Some {| TestCaseResult.test_case := i + k + 1;
                   TestCaseResult.passed := false;
                   TestCaseResult.input := dict_get tc "input" (PyStr EmptyString);
                   TestCaseResult.expected :=
                     dict_get tc "expected_output" (PyStr EmptyString);
                   TestCaseResult.outcome :=
                     TestCaseResult.Failure (Some "Docker client not available") None;
                   TestCaseResult.execution_time := 0 |}.
Proof.
  intros Hc tcs. induction tcs as [|tc tcs IH]; intros i l.
  - exists []. cbn [enumerate_from for_each]. unfold ret.
    rewrite app_nil_r, andb_true_r. destruct l. done.
  - cbn [enumerate_from for_each fst snd]. unfold bind at 1.
    rewrite (run_test_case_off _ _ _ _ _ _ _ Hc).
    edestruct (IH (S i)) as (new & E & Hlen & Hfil & Hnew). rewrite E.
    eexists (_ :: new). cbn [results all_passed andb].
    split; [by rewrite <- app_assoc, andb_false_r|].
    split; [by cbn; rewrite Hlen|]. split; [by cbn|].
    intros [|k] tc' Hk.
    + injection Hk as <-. rewrite lookup_cons. do 2 f_equal. lia.
    + rewrite lookup_cons. rewrite (Hnew k tc' Hk). do 2 f_equal. lia.
Qed.

(** X11. Without a client, [execute_code_with_tests] makes no call and
    changes nothing; every test case gets a failed result that carries
    the error "Docker client not available", no output and the time 0,
    so no test is counted as passed, and the suite succeeds only when
    there is no test case at all. *)
Theorem tests_without_client env settings code (test_cases : list (gmap string pyval)) l st :
  client (self st) = false ->
  exists sr,
    run_method (execute_code_with_tests env settings code test_cases) l st = (Ok sr, st)
    /\ SuiteResult.total_tests sr = length test_cases
    /\ SuiteResult.passed_tests sr = 0%nat
    /\ (SuiteResult.success sr = true <-> test_cases = [])
    /\ forall k tc,
         test_cases !! k = Some tc ->
         SuiteResult.test_results sr !! k
         = Some {| TestCaseResult.test_case := k + 1;
                   TestCaseResult.passed := false;
                   TestCaseResult.input := dict_get tc "input" (PyStr EmptyString);
                   TestCaseResult.expected :=
                     dict_get tc "expected_output" (PyStr EmptyString);
                   TestCaseResult.outcome :=
                     TestCaseResult.Failure (Some "Docker client not available") None;
                   TestCaseResult.execution_time := 0 |}.
Proof.
  intros Hc.
  destruct (loop_off env settings code st Hc test_cases 0%nat fresh_suite)
    as (new & E & Hlen & Hfil & Hnew).
  eexists. split.
  { unfold run_method, execute_code_with_tests, bind, set_local, get_local, ret.
    rewrite E. reflexivity. }
  cbn [SuiteResult.total_tests SuiteResult.passed_tests SuiteResult.success
       SuiteResult.test_results fresh_suite results all_passed app andb].
  split; [done|]. split; [by rewrite Hfil|]. split; [|done].
  rewrite bool_decide_eq_true. done.
Qed.

Lemma tests_without_client_witness :
  exists sr,
    run_method (execute_code_with_tests (calm "ok") default_settings
                  "def solution(x): return True" [wants_true])
               fresh_suite (boot false) = (Ok sr, boot false)
    /\ SuiteResult.success sr <> true
    /\ SuiteResult.passed_tests sr = 0%nat.
Proof.
  destruct (tests_without_client (calm "ok") default_settings
              "def solution(x): return True" [wants_true] fresh_suite (boot false)
              eq_refl) as (sr & E & _ & Hp & Hs & _).
  exists sr. split; [exact E|]. split; [|exact Hp].
  intros Hs'. apply Hs in Hs'. discriminate Hs'.
Defined.

Lemma create_calls_app evs1 evs2 :
  create_calls (evs1 ++ evs2) = (create_calls evs1 ++ create_calls evs2)%list.
Proof. apply omap_app. Qed.

Lemma wait_timeouts_app evs1 evs2 :
  wait_timeouts (evs1 ++ evs2) = (wait_timeouts evs1 ++ wait_timeouts evs2)%list.
Proof. apply omap_app. Qed.

(** The calls of one harness run. *)
Lemma harness_run_calls env settings code st :
  exists out l' st' evs,
    execute_python_code env settings code None None unbound st = (Ok out, l', st')
    /\ trace st' = (trace st ++ evs)%list
    /\ (length (create_calls evs) <= 1)%nat
    /\ Forall (harness_container settings) (create_calls evs)
    /\ Forall (fun t => t = DOCKER_TIMEOUT settings) (wait_timeouts evs).
Proof.
  destruct (client (self st)) eqn:Hc.
  - destruct (execute_python_code_calls env settings code None None st Hc)
      as (out & l' & st' & evs & E & Ht & Hlen & Hargs & Hwait & _).
    exists out, l', st', evs. repeat split; try done.
    eapply Forall_impl; [exact Hargs|].
    intros args (? & ? & ? & ? & ? & ? & dir & file & _ & ?).
    repeat split; try done. by exists dir.
  - exists unavailable, unbound, st, [].
    rewrite (execute_off _ _ _ _ _ _ Hc), app_nil_r.
    repeat split; try done. cbn. lia.
Qed.

Lemma loop_calls env settings code (tcs : list (gmap string pyval)) :
  forall i l st,
  exists l' st' evs,
    for_each (enumerate_from i tcs)
             (fun it => run_test_case env settings code (fst it) (snd it)) l st
      = (Ok (), l', st')
    /\ trace st' = (trace st ++ evs)%list
    /\ (length (create_calls evs) <= length tcs)%nat
    /\ Forall (harness_container settings) (create_calls evs)
    /\ Forall (fun t => t = DOCKER_TIMEOUT settings) (wait_timeouts evs).
Proof.
  induction tcs as [|tc tcs IH]; intros i l st.
  - exists l, st, []. cbn [enumerate_from for_each]. unfold ret.
    rewrite app_nil_r. repeat split; try done.
  - destruct (run_test_case_effect env settings code i tc l st)
      as (out & st1 & tr & evs0 & Ex & _ & _ & _ & E1 & _).
    destruct (harness_run_calls env settings
                (wrapped_code (dict_get tc "input" (PyStr EmptyString)) code) st)
      as (out' & l1 & st1' & evs1 & Ex' & Ht1 & Hlen1 & Hargs1 & Hwait1).
    cbv zeta in Ex. unfold run_method in Ex. rewrite Ex' in Ex.
    injection Ex as -> ->.
    destruct (IH (S i) {| results := results l ++ [tr];
                          all_passed := all_passed l && TestCaseResult.passed tr |} st1)
      as (l' & st' & evs2 & E2 & Ht2 & Hlen2 & Hargs2 & Hwait2).
    exists l', st', (evs1 ++ evs2)%list.
    cbn [enumerate_from for_each fst snd]. unfold bind at 1. rewrite E1, E2.
    split; [done|]. split; [by rewrite Ht2, Ht1, app_assoc|].
    rewrite create_calls_app, wait_timeouts_app, length_app. cbn [length].
    split; [lia|]. split; by apply Forall_app.
Qed.

(** X12. During [execute_code_with_tests] at most one container is
    created per test case, and each of them is created from the image
    python:3.11-slim with networking disabled, detached, with standard
    input closed, with the memory limit and CPU quota of the settings
    and one read-only mount at /code; every wait is given
    [DOCKER_TIMEOUT]. *)
Theorem tests_create_isolated env settings code (test_cases : list (gmap string pyval))
    l st sr st' :
  run_method (execute_code_with_tests env settings code test_cases) l st = (Ok sr, st') ->
  (length (create_calls (since st st')) <= length test_cases)%nat
  /\ (forall args,
        args ∈ create_calls (since st st') ->
        image args = "python:3.11-slim"
        /\ network_mode args = "none"
        /\ detach args = true
        /\ stdin_open args = false
        /\ mem_limit args = DOCKER_MEMORY_LIMIT settings
        /\ cpu_quota args = DOCKER_CPU_QUOTA settings
        /\ exists dir, volumes args = [(dir, ("/code", "ro"))])
  /\ (forall t, t ∈ wait_timeouts (since st st') -> t = DOCKER_TIMEOUT settings).
Proof.
  destruct (loop_calls env settings code test_cases 0%nat fresh_suite st)
    as (l' & st2 & evs & E & Ht & Hlen & Hargs & Hwait).
  unfold run_method, execute_code_with_tests, bind, set_local, get_local, ret.
  rewrite E. intros [= _ <-].
  rewrite (since_app _ _ _ Ht). split; [done|]. split.
  - intros args Hin. rewrite Forall_forall in Hargs. exact (Hargs args Hin).
  - intros t Hin. rewrite Forall_forall in Hwait. exact (Hwait t Hin).
Qed.

Lemma tests_create_isolated_witness :
  exists sr st',
    run_method (execute_code_with_tests (calm "ok") default_settings
                  "def solution(x): return True" [wants_true; bare_case])
               fresh_suite (boot true) = (Ok sr, st')
    /\ forall args,
         args ∈ create_calls (since (boot true) st') ->
         network_mode args = "none" /\ stdin_open args = false.
Proof.
  destruct (suite_effect (calm "ok") default_settings
              "def solution(x): return True" [wants_true; bare_case]
              fresh_suite (boot true)) as (sr & st' & E & _).
  exists sr, st'. split; [exact E|].
  intros args Hin.
  destruct (tests_create_isolated (calm "ok") default_settings
              "def solution(x): return True" [wants_true; bare_case]
              fresh_suite (boot true) sr st' E) as (_ & Hargs & _).
  destruct (Hargs args Hin) as (_ & Hnet & _ & Hin' & _).
  split; [exact Hnet|exact Hin'].
Defined.

(** *** Trimming *)

Lemma string_app_assoc (a b c : string) : (a ++ b) ++ c = a ++ (b ++ c).
Proof. induction a as [|x a IH]; [done|]. exact (f_equal (String x) IH). Qed.

Lemma string_app_nil_r (a : string) : a ++ EmptyString = a.
Proof. induction a as [|x a IH]; [done|]. exact (f_equal (String x) IH). Qed.

Lemma rev_app_spec (s1 s2 : string) : String.rev_app s1 s2 = String.rev s1 ++ s2.
Proof.
  revert s2. induction s1 as [|a s1 IH]; intros s2; [done|].
  unfold String.rev. cbn [String.rev_app].
  rewrite (IH (String a s2)), (IH (String a EmptyString)), string_app_assoc. done.
Qed.

Lemma rev_string_app (a b : string) : String.rev (a ++ b) = String.rev b ++ String.rev a.
Proof.
  induction a as [|x a IH].
  - change (EmptyString ++ b) with b. by rewrite string_app_nil_r.
  - change (String x a ++ b) with (String x (a ++ b)).
    unfold String.rev at 1 3. cbn [String.rev_app].
    rewrite !rev_app_spec, IH, string_app_assoc. done.
Qed.

Lemma all_space_app (a b : string) :
  all_space (a ++ b) = all_space a && all_space b.
Proof.
  induction a as [|x a IH]; [done|].
  change (String x a ++ b) with (String x (a ++ b)). cbn [all_space].
  rewrite IH. by rewrite andb_assoc.
Qed.

Lemma all_space_rev (s : string) : all_space (String.rev s) = all_space s.
Proof.
  induction s as [|x s IH]; [done|].
  unfold String.rev. cbn [String.rev_app]. rewrite rev_app_spec, all_space_app, IH.
  cbn. rewrite andb_true_r. apply andb_comm.
Qed.

Lemma lstrip_all_space (s : string) : all_space s = true -> lstrip s = EmptyString.
Proof.
  induction s as [|x s IH]; cbn; [done|].
  intros [Hx Hs]%andb_true_iff. rewrite Hx. auto.
Qed.

Lemma lstrip_space_app (w s : string) :
  all_space w = true -> lstrip (w ++ s) = lstrip s.
Proof.
  induction w as [|x w IH]; [done|].
  change (String x w ++ s) with (String x (w ++ s)). cbn [all_space lstrip].
  intros [Hx Hw]%andb_true_iff. rewrite Hx. auto.
Qed.

Lemma lstrip_app_space (s w : string) :
  all_space w = true ->
  lstrip (s ++ w) = if all_space s then EmptyString else lstrip s ++ w.
Proof.
  intros Hw. induction s as [|x s IH].
  - by apply lstrip_all_space.
  - change (String x s ++ w) with (String x (s ++ w)). cbn [all_space lstrip].
    destruct (isspace x); cbn [andb]; [exact IH|done].
Qed.

Lemma rstrip_app_space (s w : string) :
  all_space w = true -> rstrip (s ++ w) = rstrip s.
Proof.
  intros Hw. unfold rstrip. rewrite rev_string_app, lstrip_space_app; [done|].
  by rewrite all_space_rev.
Qed.

(** Whitespace around a text does not show after trimming. *)
Lemma strip_outer_space (w1 s w2 : string) :
  all_space w1 = true -> all_space w2 = true ->
  strip (w1 ++ s ++ w2) = strip s.
Proof.
  intros H1 H2. unfold strip.
  rewrite lstrip_space_app by done. rewrite lstrip_app_space by done.
  destruct (all_space s) eqn:Hs.
  - by rewrite (lstrip_all_space s Hs).
  - by apply rstrip_app_space.
Qed.

(** X13. Whitespace before and after the expected text of a test case
    has no influence on the round that evaluates it: the same calls are
    made, the state afterwards is the same, and the verdicts recorded
    are the same. *)
Theorem verdict_ignores_outer_whitespace env settings code i
    (tc : gmap string pyval) (w1 s w2 : string) l st :
  all_space w1 = true ->
  all_space w2 = true ->
  tc !! "expected_output" = Some (PyStr s) ->
  let '(r, l1, st1) := run_test_case env settings code i tc l st in
  let '(r', l2, st2) :=
    run_test_case env settings code i
      (<["expected_output" := PyStr (w1 ++ s ++ w2)]> tc) l st in
  r = r'
  /\ st1 = st2
  /\ all_passed l1 = all_passed l2
  /\ TestCaseResult.passed <$> results l1 = TestCaseResult.passed <$> results l2
  /\ TestCaseResult.outcome <$> results l1 = TestCaseResult.outcome <$> results l2.
Proof.
  intros H1 H2 Hexp. unfold run_test_case.
  rewrite dict_get_insert_eq, dict_get_insert_ne by done.
  assert (Hget : dict_get tc "expected_output" (PyStr EmptyString) = PyStr s).
  { unfold dict_get. by rewrite Hexp. }
  rewrite Hget. cbn [str]. rewrite (strip_outer_space w1 s w2 H1 H2).
  unfold bind, invoke, set_local, ret, raise.
  destruct (execute_python_code env settings _ None None unbound st) as [[[out|e] le] st1];
    [|done].
  destruct (ExecutionOutcome.success out).
  - destruct (ExecutionOutcome.output out) as [text|]; [|done].
    destruct (bool_decide (strip text = strip s)); cbn [negb results all_passed]; done.
  - cbn [results all_passed]. rewrite !fmap_app. done.
Qed.

Lemma verdict_ignores_outer_whitespace_witness :
  TestCaseResult.passed <$>
    results (run_test_case (calm ("true" ++ nl)) default_settings
               "def solution(x): return True" 0
               (<["expected_output" := PyStr ((" " ++ nl) ++ "true" ++ "  ")]> wants_true)
               fresh_suite (boot true)).1.2
  = [true].
Proof.
  pose proof (verdict_ignores_outer_whitespace (calm ("true" ++ nl)) default_settings
                "def solution(x): return True" 0%nat wants_true
                (" " ++ nl) "true" "  " fresh_suite (boot true)
                eq_refl eq_refl eq_refl) as H.
  destruct (run_test_case _ _ _ _ wants_true _ _) as [[r l1] st1] eqn:E1.
  destruct (run_test_case _ _ _ _ (<[_:=_]> wants_true) _ _) as [[r' l2] st2].
  cbn [fst snd]. destruct H as (_ & _ & _ & H & _). rewrite <- H.
  vm_compute in E1. injection E1 as _ <- _. reflexivity.
Defined.

(** ** Registry entries and removal, further *)

(** The record of an entry that outlives the call that registered it. *)
Lemma execute_python_code_entry env settings code ti to st :
  client (self st) = true ->
  exists out l' st' evs,
    execute_python_code env settings code ti to unbound st = (Ok out, l', st')
    /\ trace st' = (trace st ++ evs)%list
    /\ forall cid,
         cid ∈ created evs ->
         containers (self st') !! cid = None
         \/ exists t1 t2,
              utc_readings evs = [t1; t2]
              /\ containers (self st') !! cid
                 = Some {| created_at := t1;
                           expires_at := t2 + CONTAINER_TTL settings * 1000000 |}.
Proof.
  intros Hc. unfold execute_python_code. unfold_monad. rewrite Hc. cbv beta iota.
  repeat case_step env.
  all: do 4 eexists; (split; [reflexivity|]);
       cbn [trace log_event set_containers self containers client cleanup_task stdout];
       rewrite <- ?app_assoc; cbn [app];
       (split; [reflexivity|]).
  all: try absurd_lookup.
  all: cbv beta iota zeta delta
         [created utc_readings omap list_omap created_id utc_reading ev].
  all: intros cid Hin;
       first [ by apply elem_of_nil in Hin
             | apply list_elem_of_singleton in Hin as ->;
               first [ left; apply lookup_delete_eq
                     | right; do 2 eexists; split; [reflexivity|];
                       apply lookup_insert_eq ] ].
Qed.

(** X14. When a call of [execute_python_code] leaves the entry of the
    container it created in the registry, that entry records the first
    clock reading of the registration as creation time and, as expiry,
    the second reading plus [CONTAINER_TTL] seconds; the timeout of the
    execution plays no part in it. *)
Theorem execute_entry_expiry env settings code test_input timeout st out st' cid info :
  run_method (execute_python_code env settings code test_input timeout) unbound st
    = (Ok out, st') ->
  cid ∈ created (since st st') ->
  containers (self st') !! cid = Some info ->
  exists t1 t2,
    utc_readings (since st st') = [t1; t2]
    /\ created_at info = t1
    /\ expires_at info = t2 + CONTAINER_TTL settings * 1000000.
Proof.
  intros E Hin Hcid.
  destruct (execute_run_calls _ _ _ _ _ _ _ _ E)
    as [[_ Hnil] | (Hc & l' & evs & E' & _ & _)].
  { rewrite Hnil in Hin. by apply elem_of_nil in Hin. }
  destruct (execute_python_code_entry env settings code test_input timeout st Hc)
    as (out2 & l2 & st2 & evs2 & E2 & Ht2 & Hentry).
  rewrite E2 in E'. injection E' as <- <- <-.
  rewrite (since_app _ _ _ Ht2) in *.
  destruct (Hentry cid Hin) as [Hnone | (t1 & t2 & Hutc & Hsome)]; [congruence|].
  exists t1, t2. rewrite Hsome in Hcid. injection Hcid as <-. done.
Qed.

Lemma execute_entry_expiry_witness :
  exists info,
    containers (self (snd (run_method
      (execute_python_code (stop_fails "ok") default_settings "print(1)" None (Some 5))
      unbound (boot true)))) !! "c0ffee" = Some info
    /\ expires_at info = 4000000 + 300 * 1000000.
Proof.
  eexists. split; [vm_compute; reflexivity|].
  edestruct (execute_entry_expiry (stop_fails "ok") default_settings "print(1)" None
               (Some 5) (boot true)) as (t1 & t2 & Hutc & _ & Hexp).
  { vm_compute. reflexivity. }
  { vm_compute. apply list_elem_of_here. }
  { vm_compute. reflexivity. }
  vm_compute in Hutc. injection Hutc as <- <-. exact Hexp.
Defined.



(** X20. An entry that a call of [execute_python_code] leaves behind is
    collected by the sweep: a sweep that starts in the state the call
    left and reads a time later than the entry's expiry (the second
    registration reading plus [CONTAINER_TTL] seconds) starts a destroy
    for the container and drops the entry; a sweep that reads an
    earlier or equal time leaves it registered. *)
Theorem leftover_entry_is_swept env settings code test_input timeout st out st1 cid t1 t2 :
  run_method (execute_python_code env settings code test_input timeout) unbound st
    = (Ok out, st1) ->
  cid ∈ created (since st st1) ->
  is_Some (containers (self st1) !! cid) ->
  utc_readings (since st st1) = [t1; t2] ->
  exists st2,
    run_method (cleanup_expired_containers env) () st1 = (Ok (), st2)
    /\ (t2 + CONTAINER_TTL settings * 1000000 < env (trace st1) UtcNow ->
        containers (self st2) !! cid = None /\ cid ∈ looked_up (since st1 st2))
    /\ (env (trace st1) UtcNow <= t2 + CONTAINER_TTL settings * 1000000 ->
        containers (self st2) !! cid = containers (self st1) !! cid).
Proof.
  intros E Hin [info Hcid] Hutc.
  destruct (execute_run_calls _ _ _ _ _ _ _ _ E)
    as [[_ Hnil] | (Hc & l' & evs & E' & _ & _)].
  { rewrite Hnil in Hin. by apply elem_of_nil in Hin. }
  destruct (execute_python_code_entry env settings code test_input timeout st Hc)
    as (out2 & l2 & st2' & evs2 & E2 & Ht2 & Hentry).
  rewrite E2 in E'. injection E' as -> -> ->.
  rewrite (since_app _ _ _ Ht2) in *.
  destruct (Hentry cid Hin) as [Hnone | (t1' & t2' & Hutc' & Hsome)]; [congruence|].
  rewrite Hutc in Hutc'. injection Hutc' as <- <-.
  rewrite Hsome in Hcid. injection Hcid as <-.
  assert (Hc1 : client (self st1) = true).
  { destruct (execute_python_code_effect env settings code test_input timeout st)
      as (out3 & l3 & st3 & evs3 & E3 & _ & _ & Hc3 & _).
    rewrite E2 in E3. injection E3 as _ _ <-. congruence. }
  destruct (sweep_effect env () st1) as (st2 & evs' & Es & Hts & _ & Hm & Hl & _).
  exists st2. split; [by unfold run_method; rewrite Es|]. split.
  - intros Hlate.
    assert (Hexp : cid ∈ expired_ids (env (trace st1) UtcNow) (containers (self st1))).
    { apply elem_of_expired_ids. eexists. split; [exact Hsome|]. done. }
    split; [by rewrite Hm, decide_True|].
    rewrite (since_app _ _ _ Hts). cbn [looked_up omap list_omap looked_up_id projT1 ev].
    fold (omap looked_up_id evs'). fold (looked_up evs'). by rewrite (Hl Hc1).
  - intros Hearly. rewrite Hm, decide_False; [done|].
    intros Hexp. apply elem_of_expired_ids in Hexp as (info' & Hcid' & Hlt).
    rewrite Hsome in Hcid'. injection Hcid' as <-. cbn [expires_at] in Hlt. lia.
Qed.

Lemma leftover_entry_is_swept_witness :
  exists st2,
    run_method (cleanup_expired_containers (stop_fails "ok")) ()
      (snd (run_method
              (execute_python_code (stop_fails "ok") zero_ttl "print(1)" None None)
              unbound (boot true))) = (Ok (), st2)
    /\ containers (self st2) !! "c0ffee" = None.
Proof.
  edestruct (leftover_entry_is_swept (stop_fails "ok") zero_ttl "print(1)" None None
               (boot true)) as (st2 & Es & Hlate & _).
  { vm_compute. reflexivity. }
  { vm_compute. apply list_elem_of_here. }
  { vm_compute. eexists. reflexivity. }
  { vm_compute. reflexivity. }
  exists st2. split; [exact Es|].
  apply Hlate. vm_compute. reflexivity.
Defined.

(** ** The callers of the sandbox *)

(** X16. [run_code] never answers with an HTTP error: it always
    returns a body, and the body is the outcome of executing the
    submitted code, in the state that execution leaves. *)
Theorem run_code_answers_outcome env settings submission st :
  exists out st',
    run_method
      (execute_python_code env settings (CodeSubmission.code submission) None None)
      unbound st = (Ok out, st')
    /\ run_method (run_code env settings submission) () st = (Ok (Body out), st').
Proof.
  destruct (execute_python_code_effect env settings
              (CodeSubmission.code submission) None None st)
    as (out & l' & st' & evs & E & _).
  exists out, st'. unfold run_method, run_code, try_except, bind, invoke, ret.
  rewrite E. split; [done|]. by destruct out.
Qed.

Lemma run_code_answers_outcome_witness :
  exists st',
    run_method (run_code (times_out "partial") default_settings
                  {| CodeSubmission.user_id := "u1";
                     CodeSubmission.question_id := "q1";
                     CodeSubmission.code := "while True: pass";
                     CodeSubmission.language := "python" |}) () (boot true)
    = (Ok (Body {| ExecutionOutcome.success := false;
                   ExecutionOutcome.output := Some "partial";
                   ExecutionOutcome.error :=
                     Some "Execution timeout or error: Read timed out.";
                   ExecutionOutcome.execution_time := 8 |}), st').
Proof.
  destruct (run_code_answers_outcome (times_out "partial") default_settings
              {| CodeSubmission.user_id := "u1";
                 CodeSubmission.question_id := "q1";
                 CodeSubmission.code := "while True: pass";
                 CodeSubmission.language := "python" |} (boot true))
    as (out & st' & E & Er).
  exists st'. rewrite Er. vm_compute in E. injection E as <- _. reflexivity.
Defined.

(** X17. The test cases [get_code_question] shows are those whose
    ["is_hidden"] value is falsy, in their original order; a test case
    without the key is shown, and one whose value is true, a non-zero
    number or a non-empty text is not. *)
Theorem hidden_test_cases_stay_hidden (test_cases : list (gmap string pyval)) :
  (forall tc,
     tc ∈ visible_test_cases test_cases
     <-> tc ∈ test_cases /\ truthy (dict_get tc "is_hidden" (PyBool false)) = false)
  /\ visible_test_cases test_cases `sublist_of` test_cases
  /\ (forall tc, tc ∈ test_cases -> tc !! "is_hidden" = None ->
                 tc ∈ visible_test_cases test_cases)
  /\ (forall tc v, tc !! "is_hidden" = Some v -> truthy v = true ->
                   tc ∉ visible_test_cases test_cases).
Proof.
  assert (Hiff : forall tc,
     tc ∈ visible_test_cases test_cases
     <-> tc ∈ test_cases /\ truthy (dict_get tc "is_hidden" (PyBool false)) = false).
  { intros tc. unfold visible_test_cases.
    rewrite !list_elem_of_In, filter_In, negb_true_iff. done. }
  split; [exact Hiff|]. split; [|split].
  - clear Hiff. unfold visible_test_cases.
    induction test_cases as [|tc tcs IH]; cbn; [done|].
    destruct (negb _); [apply sublist_skip|apply sublist_cons]; exact IH.
  - intros tc Hin Hnone. apply Hiff. split; [done|].
    by rewrite dict_get_missing.
  - intros tc v Hv Ht Hin. apply Hiff in Hin as [_ Hf].
    unfold dict_get in Hf. rewrite Hv in Hf. congruence.
Qed.

Lemma hidden_test_cases_stay_hidden_witness :
  <["is_hidden" := PyStr "false"]> wants_true
  ∉ visible_test_cases [wants_true; <["is_hidden" := PyStr "false"]> wants_true].
Proof.
  destruct (hidden_test_cases_stay_hidden
              [wants_true; <["is_hidden" := PyStr "false"]> wants_true])
    as (_ & _ & _ & Hhid).
  apply (Hhid _ (PyStr "false")); [|reflexivity].
  apply lookup_insert_eq.
Defined.

(** *** Fenced replies *)

Lemma rev_involutive (s : string) : String.rev (String.rev s) = s.
Proof.
  induction s as [|x s IH]; [done|].
  unfold String.rev at 2. cbn [String.rev_app].
  rewrite rev_app_spec, rev_string_app, IH. done.
Qed.

Lemma ascii_eqb_refl (a : ascii) : Ascii.eqb a a = true.
Proof. by apply Ascii.eqb_eq. Qed.

Lemma startswith_app (p s : string) : startswith p (p ++ s) = true.
Proof.
  induction p as [|x p IH]; [done|].
  change (String x p ++ s) with (String x (p ++ s)). cbn [startswith].
  by rewrite ascii_eqb_refl, IH.
Qed.

Lemma startswith_app_l (p q t : string) :
  startswith (p ++ q) t = true -> startswith p t = true.
Proof.
  revert t. induction p as [|x p IH]; intros t; [done|].
  change (String x p ++ q) with (String x (p ++ q)).
  destruct t as [|y t]; cbn [startswith]; [done|].
  intros [-> H]%andb_true_iff. by rewrite (IH t H).
Qed.

Lemma drop_front_app (p s : string) : drop_front (String.length p) (p ++ s) = s.
Proof. induction p as [|x p IH]; [done|]. exact IH. Qed.

Lemma endswith_app (s q : string) : endswith q (s ++ q) = true.
Proof. unfold endswith. rewrite rev_string_app. apply startswith_app. Qed.

Lemma rev_length (s : string) : String.length (String.rev s) = String.length s.
Proof.
  induction s as [|x s IH]; [done|].
  unfold String.rev. cbn [String.rev_app]. rewrite rev_app_spec.
  change (String.length (String x s)) with (S (String.length s)). rewrite <- IH.
  generalize (String.rev s). intros r. induction r as [|y r IHr]; [done|].
  change (String y r ++ String x EmptyString) with (String y (r ++ String x EmptyString)).
  cbn [String.length]. by rewrite IHr.
Qed.

Lemma drop_back_app (s q : string) : drop_back (String.length q) (s ++ q) = s.
Proof.
  unfold drop_back. rewrite rev_string_app, <- (rev_length q), drop_front_app.
  apply rev_involutive.
Qed.

Lemma lstrip_cases (s : string) :
  lstrip s = EmptyString
  \/ exists c r, lstrip s = String c r /\ isspace c = false.
Proof.
  induction s as [|x s IH]; [by left|].
  cbn [lstrip]. destruct (isspace x) eqn:Hx; [exact IH|].
  right. by exists x, s.
Qed.

Lemma lstrip_head (c : ascii) (r : string) :
  isspace c = false -> lstrip (String c r) = String c r.
Proof. intros Hc. cbn [lstrip]. by rewrite Hc. Qed.

Lemma lstrip_lstrip (s : string) : lstrip (lstrip s) = lstrip s.
Proof.
  destruct (lstrip_cases s) as [-> | (c & r & -> & Hc)]; [done|].
  by apply lstrip_head.
Qed.

Lemma rstrip_head (c : ascii) (r : string) :
  isspace c = false -> exists r', rstrip (String c r) = String c r'.
Proof.
  intros Hc. unfold rstrip, String.rev at 2. cbn [String.rev_app].
  rewrite rev_app_spec.
  destruct (all_space (String.rev r)) eqn:Hr.
  - exists EmptyString.
    replace (lstrip (String.rev r ++ String c EmptyString)) with (String c EmptyString).
    + reflexivity.
    + rewrite lstrip_space_app by done. symmetry. by apply lstrip_head.
  - destruct (lstrip_cases (String.rev r)) as [Hnil | (d & u & Hu & Hd)].
    + exfalso. clear -Hr Hnil. revert Hr Hnil. generalize (String.rev r).
      intros t. induction t as [|y t IH]; cbn; [done|].
      destruct (isspace y); cbn; [exact IH|done].
    + assert (Hl : lstrip (String.rev r ++ String c EmptyString)
                   = lstrip (String.rev r) ++ String c EmptyString).
      { clear -Hr. revert Hr. generalize (String.rev r). intros t.
        induction t as [|y t IH]; [done|].
        change (String y t ++ String c EmptyString)
          with (String y (t ++ String c EmptyString)).
        cbn [all_space lstrip]. destruct (isspace y); cbn [andb]; [exact IH|done]. }
      rewrite Hl, rev_string_app. eexists. reflexivity.
Qed.

Lemma rstrip_rstrip (s : string) : rstrip (rstrip s) = rstrip s.
Proof. unfold rstrip. by rewrite rev_involutive, lstrip_lstrip. Qed.

(** Trimming leaves nothing to trim. *)
Lemma strip_strip (s : string) : strip (strip s) = strip s.
Proof.
  unfold strip at 1.
  assert (Hl : lstrip (strip s) = strip s).
  { unfold strip. destruct (lstrip_cases s) as [-> | (c & r & -> & Hc)]; [done|].
    destruct (rstrip_head c r Hc) as [r' ->]. by apply lstrip_head. }
  rewrite Hl. unfold strip. apply rstrip_rstrip.
Qed.

Lemma rstrip_end (s : string) (c : ascii) :
  isspace c = false -> rstrip (s ++ String c EmptyString) = s ++ String c EmptyString.
Proof.
  intros Hc. unfold rstrip. rewrite rev_string_app.
  change (String.rev (String c EmptyString) ++ String.rev s) with (String c (String.rev s)).
  rewrite (lstrip_head _ _ Hc).
  unfold String.rev at 1. cbn [String.rev_app]. by rewrite rev_app_spec, rev_involutive.
Qed.

Lemma startswith_app_app (p q t : string) :
  startswith (p ++ q) (p ++ t) = startswith q t.
Proof.
  induction p as [|x p IH]; [done|].
  change (startswith (String x (p ++ q)) (String x (p ++ t)) = startswith q t).
  cbn [startswith]. by rewrite ascii_eqb_refl, IH.
Qed.

(** A text between fences is its own trimming. *)
Lemma strip_fenced (opening body : string) :
  startswith fence opening = true ->
  strip (opening ++ body ++ fence) = opening ++ body ++ fence.
Proof.
  intros Hop. unfold strip.
  assert (Hl : lstrip (opening ++ body ++ fence) = opening ++ body ++ fence).
  { destruct opening as [|c opening]; [done|].
    cbn [fence startswith] in Hop. apply andb_true_iff in Hop as [Hc _].
    apply Ascii.eqb_eq in Hc as <-. done. }
  rewrite Hl.
  assert (Hx : opening ++ body ++ fence
               = (opening ++ body ++ "``") ++ String "`" EmptyString).
  { by rewrite !string_app_assoc. }
  rewrite Hx. by apply rstrip_end.
Qed.

(** X18. From a reply that consists of [```json], a payload and [```],
    possibly with whitespace around, the text handed to [json.loads] is
    the trimmed payload, provided the payload followed by the closing
    fence does not itself begin with a fence; likewise for a reply
    fenced with a bare [```], provided the payload does not begin with
    the word json. *)
Theorem unfence_fenced (w0 body w3 : string) :
  all_space w0 = true ->
  all_space w3 = true ->
  (startswith fence (body ++ fence) = false ->
   unfence (w0 ++ (json_fence ++ body ++ fence) ++ w3) = strip body)
  /\ (startswith "json" (body ++ fence) = false ->
      unfence (w0 ++ (fence ++ body ++ fence) ++ w3) = strip body).
Proof.
  intros H0 H3. split; intros Hbody; unfold unfence.
  - rewrite (strip_outer_space w0 _ w3 H0 H3), (strip_fenced json_fence body) by done.
    rewrite startswith_app.
    change 7%nat with (String.length json_fence). rewrite drop_front_app, Hbody.
    rewrite endswith_app.
    change 3%nat with (String.length fence). by rewrite drop_back_app.
  - rewrite (strip_outer_space w0 _ w3 H0 H3), (strip_fenced fence body) by done.
    change json_fence with (fence ++ "json").
    rewrite startswith_app_app, Hbody, startswith_app.
    change 3%nat with (String.length fence). rewrite drop_front_app.
    rewrite endswith_app, drop_back_app. done.
Qed.

Lemma unfence_fenced_witness :
  unfence (nl ++ (json_fence ++ (nl ++ "{}" ++ nl) ++ fence) ++ nl) = "{}".
Proof.
  destruct (unfence_fenced nl (nl ++ "{}" ++ nl) nl eq_refl eq_refl) as [Hjson _].
  rewrite Hjson; reflexivity.
Defined.

(** X19. A reply that, once trimmed, neither begins nor ends with a
    fence is handed to [json.loads] trimmed and otherwise as it is. *)
Theorem unfence_plain (response : string) :
  startswith fence (strip response) = false ->
  endswith fence (strip response) = false ->
  unfence response = strip response.
Proof.
  intros Hs He. unfold unfence.
  assert (Hj : startswith json_fence (strip response) = false).
  { destruct (startswith json_fence (strip response)) eqn:Hj; [|done].
    change json_fence with (fence ++ "json") in Hj.
    apply startswith_app_l in Hj. congruence. }
  rewrite Hj, Hs, He. apply strip_strip.
Qed.

Lemma unfence_plain_witness :
  unfence (" {" ++ dquote ++ "score" ++ dquote ++ ": 10} " ++ nl)
  = "{" ++ dquote ++ "score" ++ dquote ++ ": 10}".
Proof. rewrite unfence_plain; reflexivity. Defined.
